(** * XCLIPLitModule: the training / evaluation glue of com_kitchens

    A shallow embedding of [com_kitchens/models/xclip_module.py]:
    the distributed gather of per-process step outputs, the two epoch-end
    handlers, the optimizer construction with its four parameter groups,
    and the assembly of the arguments handed to the retrieval scorer.

    Conventions.
    - Python exceptions are values of [exn]; a call that may raise returns
      a [result].
    - Python floats are idealised as exact rationals ([Q]); true division
      [/] is rational division.  Every concrete value used below (3.25,
      13, 4, ...) is exactly representable in binary64.
    - A tensor with a batch dimension is the list of its rows; [torch.cat]
      along dimension 0 is list concatenation.  Device placement
      ([.cpu()], [.to(device)]) does not change values and is not tracked.
*)

From Stdlib Require Import ZArith QArith Qround String List Permutation Lia.
From stdpp Require Import gmap strings list fin_maps.
Import ListNotations.

Local Open Scope string_scope.
Local Open Scope list_scope.

(** ** Exceptions *)

Inductive exn : Type :=
| TypeError
| ValueError
| IndexError
| RuntimeError
| AttributeError
| StopIteration
| ZeroDivisionError
| KeyError (key : string).

Inductive result (A : Type) : Type :=
| Ok (a : A)
| Raise (e : exn).

Arguments Ok {A} a.
Arguments Raise {A} e.

(** ** Strings: the Python test [sub in s] *)

Fixpoint contains (sub s : string) : bool :=
  String.prefix sub s ||
  match s with
  | EmptyString => false
  | String _ s' => contains sub s'
  end.

(** [any(nd in n for nd in markers)] *)
Definition any_in (markers : list string) (n : string) : bool :=
  existsb (fun nd => contains nd n) markers.

(** ** Configuration surface: [hparams.task_config] *)

Module TaskConfig.
Record t : Type := mk {
  cache_dir : string;
  train_data_size : Z;
  gradient_accumulation_steps : Z;
  epochs : Z;
  lr : Q;
  coef_lr : Q;
  warmup_proportion : Q;
  stage : string
}.
End TaskConfig.

(** ** Parameter groups and the optimizer collaborator *)

Module ParamGroup.
Record t (P : Type) : Type := mk {
  params : list P;
  weight_decay : Q;
  lr : option Q   (* the key "lr" is present in two of the four dicts only *)
}.
Arguments mk {P} _ _ _.
Arguments params {P} _.
Arguments weight_decay {P} _.
Arguments lr {P} _.
End ParamGroup.

Module BertAdam.
Record t (P : Type) : Type := mk {
  param_groups : list (ParamGroup.t P);
  lr : Q;
  warmup : Q;
  schedule : string;
  b1 : Q;
  b2 : Q;
  e : Q;
  t_total : Q;
  weight_decay : Q;
  max_grad_norm : Q
}.
Arguments mk {P} _ _ _ _ _ _ _ _ _ _.
Arguments param_groups {P} _.
Arguments lr {P} _.
Arguments t_total {P} _.
Arguments weight_decay {P} _.

(** Modelled from the spec: [BertAdam] lives in
    [components/xclip/optimization.py], which is not part of the sources
    at hand.  The optimizer is "constructed with parameter groups, base
    learning rate, ..." and "non-backbone groups use the unscaled base
    learning rate": a group that carries no learning rate of its own runs
    at the constructor's [lr]. *)
Definition group_lr {P} (opt : t P) (g : ParamGroup.t P) : Q :=
  match ParamGroup.lr g with
  | Some x => x
  | None => lr opt
  end.
End BertAdam.

(** ** [configure_optimizers]: step count *)

(** Python's [a / b] on two ints: true division. *)
Definition truediv (a b : Z) : result Q :=
  if (b =? 0)%Z then Raise ZeroDivisionError
  else Ok (inject_Z a / inject_Z b)%Q.

Definition num_train_optimization_steps (c : TaskConfig.t) : result Q :=
  match truediv (TaskConfig.train_data_size c
                 + TaskConfig.gradient_accumulation_steps c - 1)%Z
                (TaskConfig.gradient_accumulation_steps c) with
  | Ok q => Ok (q * inject_Z (TaskConfig.epochs c))%Q
  | Raise e => Raise e
  end.

(** The step count in the words of the specification: the ceiling of
    [train_data_size / gradient_accumulation_steps], times [epochs]. *)
Definition ceil_div (a b : Z) : Z := Qceiling (inject_Z a / inject_Z b)%Q.

Definition spec_total_steps (c : TaskConfig.t) : Z :=
  (ceil_div (TaskConfig.train_data_size c)
            (TaskConfig.gradient_accumulation_steps c)
   * TaskConfig.epochs c)%Z.

(** ** [configure_optimizers]: the four parameter groups *)

Definition no_decay : list string :=
  ["bias"; "LayerNorm.bias"; "LayerNorm.weight"].

Definition weight_decay : Q := 0.2%Q.

Section Grouping.
Context {P : Type}.
Variable param_optimizer : list (string * P).

Definition decay_param_tp : list (string * P) :=
  List.filter (fun np => negb (any_in no_decay (fst np))) param_optimizer.

Definition no_decay_param_tp : list (string * P) :=
  List.filter (fun np => any_in no_decay (fst np)) param_optimizer.

Definition decay_clip_param_tp : list (string * P) :=
  List.filter (fun np => contains "clip." (fst np)) decay_param_tp.

Definition decay_noclip_param_tp : list (string * P) :=
  List.filter (fun np => negb (contains "clip." (fst np))) decay_param_tp.

Definition no_decay_clip_param_tp : list (string * P) :=
  List.filter (fun np => contains "clip." (fst np)) no_decay_param_tp.

Definition no_decay_noclip_param_tp : list (string * P) :=
  List.filter (fun np => negb (contains "clip." (fst np))) no_decay_param_tp.

Definition optimizer_grouped_parameters (c : TaskConfig.t)
  : list (ParamGroup.t P) :=
  [ ParamGroup.mk (map snd decay_clip_param_tp) weight_decay
      (Some (TaskConfig.lr c * TaskConfig.coef_lr c)%Q);
    ParamGroup.mk (map snd decay_noclip_param_tp) weight_decay None;
    ParamGroup.mk (map snd no_decay_clip_param_tp) 0.0%Q
      (Some (TaskConfig.lr c * TaskConfig.coef_lr c)%Q);
    ParamGroup.mk (map snd no_decay_noclip_param_tp) 0.0%Q None ].

End Grouping.

(** ** Tensors *)

(** A dense 2-D tensor: its shape and its entries.  [.T] is a view that
    swaps the two axes. *)
Record Tensor2 : Type := mkTensor2 {
  shape : nat * nat;
  at_ : nat -> nat -> Q
}.

Definition T (m : Tensor2) : Tensor2 :=
  {| shape := (snd (shape m), fst (shape m));
     at_ := fun i j => at_ m j i |}.

(** [x[mask]] with a boolean mask over dimension 0: the rows whose flag
    is set; the mask must be as long as [x]. *)
Fixpoint mask_select {A} (x : list A) (mask : list bool) : result (list A) :=
  match x, mask with
  | [], [] => Ok []
  | a :: x', b :: mask' =>
      match mask_select x' mask' with
      | Ok r => Ok (if b then a :: r else r)
      | Raise e => Raise e
      end
  | _, _ => Raise IndexError
  end.

(** [torch.stack([a, b, c]).T] for three 1-D tensors: one row per item. *)
Fixpoint stack3_T (a b c : list Z) : result (list (Z * Z * Z)) :=
  match a, b, c with
  | [], [], [] => Ok []
  | x :: a', y :: b', z :: c' =>
      match stack3_T a' b' c' with
      | Ok r => Ok ((x, y, z) :: r)
      | Raise e => Raise e
      end
  | _, _, _ => Raise RuntimeError
  end.

(** The builtin [sum] over a boolean tensor. *)
Definition sum_flags (mask : list bool) : nat :=
  List.length (List.filter (fun b => b) mask).

(** ** The module and its collaborators *)

Section Module.

(** [Row]: one item's slice of an embedding or mask tensor;
    [P]: a model parameter. *)
Context {Row P : Type}.

(** A StepOutput: the dict appended by [validation_step] / [test_step]. *)
Record StepOutput : Type := mkStepOutput {
  sequence_output : list Row;
  seq_features : list Row;
  visual_output : list Row;
  is_query : list bool;
  is_pool : list bool;
  recipe_id : list Z;
  kitchen_id : list Z;
  ap_id : list Z;
  attention_mask : list Row;
  video_mask : list Row
}.

(** The model collaborator, interface only. *)
Record XCLIP : Type := mkXCLIP {
  named_parameters : list (string * P);
  loose_type : bool;
  get_similarity_logits :
    list Row -> list Row -> list Row -> list Row -> list Row -> bool ->
    Tensor2 * Tensor2
}.

(** [self.model] is the network itself or a replication wrapper that
    exposes it as [.module]. *)
Inductive Net : Type :=
| Bare (net : XCLIP)
| Wrapped (module : XCLIP).

Definition hasattr_module (m : Net) : bool :=
  match m with Wrapped _ => true | Bare _ => false end.

Definition parameters (m : Net) : list P :=
  match m with Bare n | Wrapped n => map snd (named_parameters n) end.

(** The scorer collaborator [compute_scores], interface only. *)
Variable compute_scores :
  Tensor2 -> list (Z * Z * Z) -> list (Z * Z * Z) -> string -> gmap string Q.

Record Trainer : Type := mkTrainer {
  global_rank : nat;
  world_size : nat
}.

Definition is_global_zero (t : Trainer) : bool := (global_rank t =? 0)%nat.

(** The running-mean objects created in [__init__], by attribute name. *)
Inductive metric_attr : Type :=
| val_m1_recall_at_1 | val_m1_recall_at_5 | val_m1_recall_at_10
| val_m2_recall_at_1 | val_m2_recall_at_5 | val_m2_recall_at_10
| test_feasible_recall_at_1 | test_feasible_recall_at_5
| test_feasible_recall_at_10 | test_feasible_median
| test_m2_recall_at_1 | test_m2_recall_at_5 | test_m2_recall_at_10
| test_m2_median
| test_n_seq | test_n_vid
| train_loss | val_loss.

#[global] Instance metric_attr_eq_dec : EqDecision metric_attr.
Proof. solve_decision. Defined.

(** A [MeanMetric] is represented by the values it has been updated
    with, oldest first. *)
Definition MeanMetric : Type := list Q.

Record XCLIPLitModule : Type := mkModule {
  task_config : TaskConfig.t;
  model : Net;
  trainer : Trainer;
  valid_step_outputs : list StepOutput;
  test_step_outputs : list StepOutput;
  metrics : metric_attr -> MeanMetric
}.

Definition set_metrics (f : metric_attr -> MeanMetric) (m : XCLIPLitModule)
  : XCLIPLitModule :=
  {| task_config := task_config m; model := model m; trainer := trainer m;
     valid_step_outputs := valid_step_outputs m;
     test_step_outputs := test_step_outputs m;
     metrics := f |}.

Definition set_model (n : Net) (m : XCLIPLitModule) : XCLIPLitModule :=
  {| task_config := task_config m; model := n; trainer := trainer m;
     valid_step_outputs := valid_step_outputs m;
     test_step_outputs := test_step_outputs m;
     metrics := metrics m |}.

(** What the other processes send in the current collective, by rank. *)
Record Dist : Type := mkDist {
  peer_objects : nat -> list StepOutput
}.

(** Calls into the process group and into the logging sink, in program
    order. *)
Inductive Event : Type :=
| gather_object_call (obj : list StepOutput) (with_gather_list : bool)
    (dst : nat)
| log_call (name : string) (value : metric_attr)
    (prog_bar sync_dist : bool) (on_step on_epoch : option bool).

Record State : Type := mkState {
  self : XCLIPLitModule;
  calls : list Event
}.

(** ** A state-and-exception monad for the handlers *)

Definition M (A : Type) : Type := State -> result A * State.

Definition ret {A} (a : A) : M A := fun s => (Ok a, s).

Definition raise {A} (e : exn) : M A := fun s => (Raise e, s).

Definition bind {A B} (m : M A) (k : A -> M B) : M B :=
  fun s =>
    match m s with
    | (Ok a, s') => k a s'
    | (Raise e, s') => (Raise e, s')
    end.

Definition lift {A} (r : result A) : M A := fun s => (r, s).

Definition get_self : M XCLIPLitModule := fun s => (Ok (self s), s).

Definition modify_self (f : XCLIPLitModule -> XCLIPLitModule) : M unit :=
  fun s => (Ok tt, {| self := f (self s); calls := calls s |}).

Definition emit (ev : Event) : M unit :=
  fun s => (Ok tt, {| self := self s; calls := calls s ++ [ev] |}).

Declare Scope py_scope.
Delimit Scope py_scope with py.
Notation "x <- c1 ;; c2" := (bind c1 (fun x => c2))
  (at level 100, c1 at next level, right associativity) : py_scope.
Notation "c1 ;; c2" := (bind c1 (fun _ => c2))
  (at level 100, right associativity) : py_scope.
Local Open Scope py_scope.

(** ** [torch.distributed.gather_object] *)

Definition given {A} (arg : option A) : bool :=
  match arg with Some _ => true | None => false end.

(** The object placed at slot [r] of the destination's gather list. *)
Definition contribution (d : Dist) (me : nat) (obj : list StepOutput)
  (r : nat) : list StepOutput :=
  if (r =? me)%nat then obj else peer_objects d r.

Definition fill_gather_list (d : Dist) (me : nat) (obj : list StepOutput)
  (size : nat) (gl : list (option (list StepOutput)))
  : list (option (list StepOutput)) :=
  fold_left (fun acc r => <[r := Some (contribution d me obj r)]> acc)
            (seq 0 size) gl.

(** Every rank sends [obj]; on rank [dst] the gather list is filled with
    one object per rank, in rank order.  The list must be given on the
    destination and only there.  The call fills the list in place; here
    it returns the list as it stands after the call ([None] when no list
    was passed). *)
Definition gather_object (d : Dist) (obj : list StepOutput)
  (object_gather_list : option (list (option (list StepOutput))))
  (dst : nat) : M (option (list (option (list StepOutput)))) :=
  me <- get_self ;;
  emit (gather_object_call obj (given object_gather_list) dst) ;;
  if (global_rank (trainer me) =? dst)%nat then
    match object_gather_list with
    | None => raise ValueError
    | Some gl =>
        if (List.length gl <? world_size (trainer me))%nat
        then raise IndexError
        else ret (Some (fill_gather_list d (global_rank (trainer me)) obj
                          (world_size (trainer me)) gl))
    end
  else
    match object_gather_list with
    | None => ret None
    | Some _ => raise ValueError
    end.

(** [[output for outputs in list_gather_obj for output in outputs]]:
    iterating a slot that is still [None] raises. *)
Fixpoint flatten (l : list (option (list StepOutput)))
  : result (list StepOutput) :=
  match l with
  | [] => Ok []
  | None :: _ => Raise TypeError
  | Some outputs :: rest =>
      match flatten rest with
      | Ok r => Ok (outputs ++ r)
      | Raise e => Raise e
      end
  end.

Definition _gather_outputs (d : Dist) (obj : list StepOutput)
  : M (option (list StepOutput)) :=
  me <- get_self ;;
  if negb (is_global_zero (trainer me)) then
    gather_object d obj None 0 ;;
    ret None
  else
    let list_gather_obj := replicate (world_size (trainer me)) None in
    filled <- gather_object d obj (Some list_gather_obj) 0 ;;
    match filled with
    | None => raise TypeError        (* no list to iterate; not reached *)
    | Some list_gather_obj =>
        flat <- lift (flatten list_gather_obj) ;;
        ret (Some flat)
    end.

(** ** [_compute_v2t_metrics] *)

Definition rbind {A B} (r : result A) (k : A -> result B) : result B :=
  match r with
  | Ok a => k a
  | Raise e => Raise e
  end.

Declare Scope res_scope.
Delimit Scope res_scope with res.
Notation "x <- c1 ;; c2" := (rbind c1 (fun x => c2))
  (at level 100, c1 at next level, right associativity) : res_scope.
Notation "c1 ;; c2" := (rbind c1 (fun _ => c2))
  (at level 100, right associativity) : res_scope.

Inductive Device : Type := cpu | cuda (index : nat).

(** [next(self.model.parameters())] *)
Definition next_parameter (m : Net) : result P :=
  match parameters m with
  | [] => Raise StopIteration
  | p :: _ => Ok p
  end.

(** Attribute access on [self.model]: the wrapper does not forward the
    network's own attributes. *)
Definition model_attr (m : Net) : result XCLIP :=
  match m with
  | Bare n => Ok n
  | Wrapped _ => Raise AttributeError
  end.

Definition cat {A} (field : StepOutput -> list A) (outputs : list StepOutput)
  : list A :=
  concat (map field outputs).

(** What [compute_scores] is called with. *)
Record ScorerCall : Type := mkScorerCall {
  call_logits : Tensor2;
  call_pool_ids : list (Z * Z * Z);
  call_query_ids : list (Z * Z * Z);
  call_stage : string
}.

(** The body of [_compute_v2t_metrics] from the device lookup up to the
    call of the scorer, with the two counts returned next to the scores. *)
Definition v2t_scorer_call (me : XCLIPLitModule) (outputs : list StepOutput)
  (device : option Device) : result (ScorerCall * nat * nat) :=
  (_ <- match device with
        | None => _ <- next_parameter (model me) ;; Ok tt
        | Some _ => Ok tt
        end ;;
   let sequence_output := cat sequence_output outputs in
   let seq_features := cat seq_features outputs in
   let visual_output := cat visual_output outputs in
   let attention_mask := cat attention_mask outputs in
   let video_mask := cat video_mask outputs in
   recipe_kitchen_ap_ids <-
     stack3_T (cat recipe_id outputs) (cat kitchen_id outputs)
              (cat ap_id outputs) ;;
   let is_query := cat is_query outputs in
   let is_pool := cat is_pool outputs in
   (* query *)
   visual_output <- mask_select visual_output is_query ;;
   video_mask <- mask_select video_mask is_query ;;
   (* pool *)
   sequence_output <- mask_select sequence_output is_pool ;;
   seq_features <- mask_select seq_features is_pool ;;
   attention_mask <- mask_select attention_mask is_pool ;;
   (* similarity matrix *)
   net <- model_attr (model me) ;;
   let retrieve_logits :=
     fst (get_similarity_logits net sequence_output seq_features
            visual_output attention_mask video_mask (loose_type net)) in
   let retrieve_logits := T retrieve_logits in
   pool_ids <- mask_select recipe_kitchen_ap_ids is_pool ;;
   query_ids <- mask_select recipe_kitchen_ap_ids is_query ;;
   Ok ({| call_logits := retrieve_logits;
          call_pool_ids := pool_ids;
          call_query_ids := query_ids;
          call_stage := TaskConfig.stage (task_config me) |},
       sum_flags is_pool, sum_flags is_query))%res.

(** [outputs] is whatever the caller holds: a list, or the [None] that
    [_gather_outputs] returns off the coordinator.  The bare [return] of
    the empty case yields [None]. *)
Definition _compute_v2t_metrics (me : XCLIPLitModule)
  (outputs : option (list StepOutput)) (device : option Device)
  : result (option (gmap string Q * nat * nat)) :=
  match outputs with
  | None => Raise TypeError          (* len(None) *)
  | Some outputs =>
      if (List.length outputs =? 0)%nat then Ok None
      else
        (c <- v2t_scorer_call me outputs device ;;
         let '(call, n_seq, n_vid) := c in
         let scores :=
           compute_scores (call_logits call) (call_pool_ids call)
                          (call_query_ids call) (call_stage call) in
         Ok (Some (scores, n_seq, n_vid)))%res
  end.

(** ** Metric updates and logging *)

(** [a, b, c = value] *)
Definition unpack3 {A B C} (value : option (A * B * C)) : M (A * B * C) :=
  match value with
  | Some t => ret t
  | None => raise TypeError
  end.

(** [d[key]] *)
Definition getitem (d : gmap string Q) (key : string) : M Q :=
  match d !! key with
  | Some v => ret v
  | None => raise (KeyError key)
  end.

Definition updated (a : metric_attr) (v : Q) (f : metric_attr -> MeanMetric)
  : metric_attr -> MeanMetric :=
  fun a' => if decide (a' = a) then f a' ++ [v] else f a'.

(** [self.<a>.update(v)] *)
Definition update (a : metric_attr) (v : Q) : M unit :=
  modify_self (fun m => set_metrics (updated a v (metrics m)) m).

(** [self.log(name, value)] with the framework's defaults. *)
Definition log (name : string) (value : metric_attr) : M unit :=
  emit (log_call name value false false None None).

(** [log_on_epoch]: on_step=False, on_epoch=True, prog_bar=True,
    sync_dist=False. *)
Definition log_on_epoch (name : string) (value : metric_attr) : M unit :=
  emit (log_call name value true false (Some false) (Some true)).

Definition count (n : nat) : Q := inject_Z (Z.of_nat n).

(** ** Epoch-end handlers *)

Definition on_validation_epoch_end (d : Dist) : M unit :=
  me <- get_self ;;
  (* gather_object should be executed on all nodes *)
  gathered <- _gather_outputs d (valid_step_outputs me) ;;
  (* the name is rebound to the local list at once *)
  let valid_step_outputs := Some (valid_step_outputs me) in
  (* run the validation only on rank 0 *)
  (if is_global_zero (trainer me) then
     r <- lift (_compute_v2t_metrics me valid_step_outputs None) ;;
     t <- unpack3 r ;;
     let '(v2t_metrics, _, _) := t in
     v <- getitem v2t_metrics "M1-R1" ;; update val_m1_recall_at_1 v ;;
     v <- getitem v2t_metrics "M1-R5" ;; update val_m1_recall_at_5 v ;;
     v <- getitem v2t_metrics "M1-R10" ;; update val_m1_recall_at_10 v ;;
     v <- getitem v2t_metrics "M2-R1" ;; update val_m2_recall_at_1 v ;;
     v <- getitem v2t_metrics "M2-R5" ;; update val_m2_recall_at_5 v ;;
     v <- getitem v2t_metrics "M2-R10" ;; update val_m2_recall_at_10 v
   else ret tt) ;;
  (* required to run on every nodes to avoid locking *)
  log_on_epoch "val/M1-R@1" val_m1_recall_at_1 ;;
  log_on_epoch "val/M1-R@5" val_m1_recall_at_5 ;;
  log_on_epoch "val/M1-R@10" val_m1_recall_at_10 ;;
  log_on_epoch "val/M2-R@1" val_m2_recall_at_1 ;;
  log_on_epoch "val/M2-R@5" val_m2_recall_at_5 ;;
  log_on_epoch "val/M2-R@10" val_m2_recall_at_10.

Definition on_test_epoch_end (d : Dist) : M unit :=
  me <- get_self ;;
  test_step_outputs <- _gather_outputs d (test_step_outputs me) ;;
  (* run the validation only on rank 0 *)
  (if is_global_zero (trainer me) then
     r <- lift (_compute_v2t_metrics me test_step_outputs None) ;;
     t <- unpack3 r ;;
     let '(v2t_metrics, n_seq, n_vid) := t in
     v <- getitem v2t_metrics "M2-R1" ;; update test_m2_recall_at_1 v ;;
     v <- getitem v2t_metrics "M2-R5" ;; update test_m2_recall_at_5 v ;;
     v <- getitem v2t_metrics "M2-R10" ;; update test_m2_recall_at_10 v ;;
     v <- getitem v2t_metrics "M2-median" ;; update test_m2_median v ;;
     update test_n_seq (count n_seq) ;;
     update test_n_vid (count n_vid)
   else ret tt) ;;
  (* required to run on every nodes to avoid locking *)
  log "test/M2-R@1" test_m2_recall_at_1 ;;
  log "test/M2-R@5" test_m2_recall_at_5 ;;
  log "test/M2-R@10" test_m2_recall_at_10 ;;
  log "test/M2-median" test_m2_median ;;
  log "test/n_seq" test_n_seq ;;
  log "test/n_vid" test_n_vid.

(** ** [configure_optimizers] *)

Definition unwrap (m : Net) : Net :=
  match m with
  | Wrapped n => Bare n
  | Bare n => Bare n
  end.

(** [list(self.model.named_parameters())]; a wrapper reports its
    network's parameters under the prefix [module.]. *)
Definition named_parameters_of (m : Net) : list (string * P) :=
  match m with
  | Bare n => named_parameters n
  | Wrapped n => map (fun np => (String.append "module." (fst np), snd np))
                     (named_parameters n)
  end.

(** Returns the optimizer, the single entry of the dict the method
    returns. *)
Definition configure_optimizers : M (BertAdam.t P) :=
  me <- get_self ;;
  num_train_optimization_steps <-
    lift (num_train_optimization_steps (task_config me)) ;;
  (if hasattr_module (model me)
   then modify_self (set_model (unwrap (model me)))
   else ret tt) ;;
  me <- get_self ;;
  let param_optimizer := named_parameters_of (model me) in
  let groups := optimizer_grouped_parameters param_optimizer (task_config me) in
  ret (BertAdam.mk groups
         (TaskConfig.lr (task_config me))
         (TaskConfig.warmup_proportion (task_config me))
         "warmup_cosine" 0.9%Q 0.98%Q 1e-6%Q
         num_train_optimization_steps weight_decay 1.0%Q).

End Module.

Arguments StepOutput Row : clear implicits.
Arguments XCLIP Row P : clear implicits.
Arguments Net Row P : clear implicits.
Arguments XCLIPLitModule Row P : clear implicits.
Arguments Dist Row : clear implicits.
Arguments Event Row : clear implicits.
Arguments State Row P : clear implicits.
Arguments M Row P A : clear implicits.

(** ** Concrete inputs used by the examples below *)

Module Examples.

Definition cfg (size steps n_epochs : Z) : TaskConfig.t :=
  TaskConfig.mk "cache" size steps n_epochs 0.0001%Q 0.001%Q 0.1%Q "val".

(** The parameter names of the specification's grouping example, with
    parameters numbered 1 to 4. *)
Definition spec_names : list (string * nat) :=
  [("backbone.layer.weight", 1%nat); ("backbone.layer.bias", 2%nat);
   ("fusion.weight", 3%nat); ("fusion.bias", 4%nat)].

Definition clip_names : list (string * nat) :=
  [("clip.layer.weight", 1%nat); ("clip.layer.bias", 2%nat);
   ("fusion.weight", 3%nat); ("fusion.bias", 4%nat)].

(** Modelled from the spec: [modeling_xclip.py] is not part of the
    sources at hand; "the model produces (query-count x pool-count)".
    The query items are the visual ones and the pool items the sequence
    ones, so the logits have one row per visual item and one column per
    sequence item; entry (i, j) is 10 i + j. *)
Definition net (names : list (string * nat)) : XCLIP nat nat :=
  {| named_parameters := names;
     loose_type := true;
     get_similarity_logits := fun seq _ vis _ _ _ =>
       let logits :=
         {| shape := (List.length vis, List.length seq);
            at_ := fun i j => inject_Z (Z.of_nat (10 * i + j)) |} in
       (logits, T logits) |}.

(** A scorer that reports the number of rows of the matrix it is given
    under every key the handlers read. *)
Definition scorer (m : Tensor2) (pool query : list (Z * Z * Z))
  (stage : string) : gmap string Q :=
  let v := inject_Z (Z.of_nat (fst (shape m))) in
  list_to_map
    [("M1-R1", v); ("M1-R5", v); ("M1-R10", v);
     ("M2-R1", v); ("M2-R5", v); ("M2-R10", v); ("M2-median", v)].

(** One batch holding a single item. *)
Definition item (row : nat) (query pool : bool) (id : Z) : StepOutput nat :=
  {| sequence_output := [row]; seq_features := [row];
     visual_output := [row];
     is_query := [query]; is_pool := [pool];
     recipe_id := [id]; kitchen_id := [0%Z]; ap_id := [0%Z];
     attention_mask := [row]; video_mask := [row] |}.

(** One query item and two pool items. *)
Definition query_item : StepOutput nat := item 7 true false 1.
Definition pool_item_1 : StepOutput nat := item 8 false true 1.
Definition pool_item_2 : StepOutput nat := item 9 false true 2.

Definition fresh (rank size : nat) (valid test : list (StepOutput nat))
  : State nat nat :=
  {| self := {| task_config := cfg 10 4 1;
                model := Bare (net clip_names);
                trainer := {| global_rank := rank; world_size := size |};
                valid_step_outputs := valid;
                test_step_outputs := test;
                metrics := fun _ => [] |};
     calls := [] |}.

(** The other ranks each hold the batch [others]. *)
Definition peers (others : list (StepOutput nat)) : Dist nat :=
  {| peer_objects := fun _ => others |}.

End Examples.

(** ** The per-batch hooks and the phase-start hooks *)

(** A batch: the mapping handed over by the data loader, with the keys
    the hooks read and the inputs that only the model looks at. *)
Module Batch.
Record t (Row : Type) : Type := mk {
  input_ids : list Row;
  video : list Row;
  is_query : list bool;
  is_pool : list bool;
  recipe_id : list Z;
  kitchen_id : list Z;
  ap_id : list Z;
  attention_mask : list Row;
  video_mask : list Row
}.
Arguments mk {Row} _ _ _ _ _ _ _ _ _.
Arguments input_ids {Row} _.
Arguments video {Row} _.
Arguments is_query {Row} _.
Arguments is_pool {Row} _.
Arguments recipe_id {Row} _.
Arguments kitchen_id {Row} _.
Arguments ap_id {Row} _.
Arguments attention_mask {Row} _.
Arguments video_mask {Row} _.
End Batch.

Section Steps.
Context {Row P : Type}.

(** The two remaining entry points of the model collaborator, interface
    only: [forward], which returns the loss of a batch, and
    [get_sequence_visual_output]. *)
Variable forward : XCLIP Row P -> Batch.t Row -> Q.
Variable get_sequence_visual_output :
  XCLIP Row P -> Batch.t Row -> (list Row * list Row) * list Row.

Declare Scope py_scope.
Notation "x <- c1 ;; c2" := (bind c1 (fun x => c2))
  (at level 100, c1 at next level, right associativity) : py_scope.
Notation "c1 ;; c2" := (bind c1 (fun _ => c2))
  (at level 100, right associativity) : py_scope.
Local Open Scope py_scope.

Definition set_valid_step_outputs (l : list (StepOutput Row))
  (m : XCLIPLitModule Row P) : XCLIPLitModule Row P :=
  {| task_config := task_config m; model := model m; trainer := trainer m;
     valid_step_outputs := l;
     test_step_outputs := test_step_outputs m;
     metrics := metrics m |}.

Definition set_test_step_outputs (l : list (StepOutput Row))
  (m : XCLIPLitModule Row P) : XCLIPLitModule Row P :=
  {| task_config := task_config m; model := model m; trainer := trainer m;
     valid_step_outputs := valid_step_outputs m;
     test_step_outputs := l;
     metrics := metrics m |}.

Definition cleared (a : metric_attr) (f : metric_attr -> MeanMetric)
  : metric_attr -> MeanMetric :=
  fun a' => if decide (a' = a) then [] else f a'.

(** [self.<a>.reset()] *)
Definition reset (a : metric_attr) : M Row P unit :=
  modify_self (fun m => set_metrics (cleared a (metrics m)) m).

(** [self.log(name, value, on_step=.., on_epoch=.., prog_bar=..)] *)
Definition log_with (name : string) (value : metric_attr)
  (on_step on_epoch prog_bar : bool) : M Row P unit :=
  emit (log_call name value prog_bar false (Some on_step) (Some on_epoch)).

Definition on_train_start : M Row P unit :=
  reset val_m1_recall_at_1 ;;
  reset val_m1_recall_at_5 ;;
  reset val_m1_recall_at_10 ;;
  reset val_m2_recall_at_1 ;;
  reset val_m2_recall_at_5 ;;
  reset val_m2_recall_at_10.

(** Calling the model: a wrapper runs its network. *)
Definition model_forward (m : Net Row P) (batch : Batch.t Row) : Q :=
  match m with Bare n | Wrapped n => forward n batch end.

Definition model_step (batch : Batch.t Row) : M Row P Q :=
  me <- get_self ;;
  let loss := model_forward (model me) batch in
  ret loss.

Definition training_step (batch : Batch.t Row) (batch_idx : nat)
  : M Row P Q :=
  loss <- model_step batch ;;
  update train_loss loss ;;
  (* update and log metrics *)
  log_with "train/loss" train_loss true true true ;;
  ret loss.

(** [self.valid_step_outputs[:] = []] *)
Definition on_validation_start : M Row P unit :=
  modify_self (set_valid_step_outputs []).

(** The dict both evaluation steps append. *)
Definition step_output (embeddings : (list Row * list Row) * list Row)
  (batch : Batch.t Row) : StepOutput Row :=
  let '((sequence_output, seq_features), visual_output) := embeddings in
  {| sequence_output := sequence_output;
     seq_features := seq_features;
     visual_output := visual_output;
     is_query := Batch.is_query batch;
     is_pool := Batch.is_pool batch;
     recipe_id := Batch.recipe_id batch;
     kitchen_id := Batch.kitchen_id batch;
     ap_id := Batch.ap_id batch;
     attention_mask := Batch.attention_mask batch;
     video_mask := Batch.video_mask batch |}.

Definition validation_step (batch : Batch.t Row) (batch_idx : nat)
  : M Row P unit :=
  me <- get_self ;;
  net <- lift (model_attr (model me)) ;;
  let embeddings := get_sequence_visual_output net batch in
  loss <- model_step batch ;;
  update val_loss loss ;;
  (* update and log metrics *)
  log_with "val/loss" val_loss true true true ;;
  (* keep outputs in CPU to void OOM *)
  modify_self (fun m =>
    set_valid_step_outputs
      (valid_step_outputs m ++ [step_output embeddings batch]) m).

(** [self.test_step_outputs[:] = []] *)
Definition on_test_start : M Row P unit :=
  modify_self (set_test_step_outputs []).

Definition test_step (batch : Batch.t Row) (batch_idx : nat)
  : M Row P unit :=
  me <- get_self ;;
  net <- lift (model_attr (model me)) ;;
  let embeddings := get_sequence_visual_output net batch in
  (* keep outputs in CPU to void OOM *)
  modify_self (fun m =>
    set_test_step_outputs
      (test_step_outputs m ++ [step_output embeddings batch]) m).

(** The trainer's loop over a data loader: the step hook on every batch,
    in order, with its index; the returned values are dropped. *)
Fixpoint run_steps {A} (step : Batch.t Row -> nat -> M Row P A)
  (batches : list (Batch.t Row)) (batch_idx : nat) : M Row P unit :=
  match batches with
  | [] => ret tt
  | batch :: rest =>
      step batch batch_idx ;; run_steps step rest (S batch_idx)
  end.

(** The order in which the trainer drives the hooks of one validation
    run and of one test run on a process. *)
Variable compute_scores :
  Tensor2 -> list (Z * Z * Z) -> list (Z * Z * Z) -> string -> gmap string Q.

Definition validation_phase (d : Dist Row) (batches : list (Batch.t Row))
  : M Row P unit :=
  on_validation_start ;;
  run_steps validation_step batches 0 ;;
  on_validation_epoch_end compute_scores d.

Definition test_phase (d : Dist Row) (batches : list (Batch.t Row))
  : M Row P unit :=
  on_test_start ;;
  run_steps test_step batches 0 ;;
  on_test_epoch_end compute_scores d.

End Steps.

(** A batch whose flags, ids and masks agree on the batch size. *)
Definition consistent_batch {Row} (b : Batch.t Row) : Prop :=
  let n := List.length (Batch.is_query b) in
  List.length (Batch.is_pool b) = n /\
  List.length (Batch.recipe_id b) = n /\
  List.length (Batch.kitchen_id b) = n /\
  List.length (Batch.ap_id b) = n /\
  List.length (Batch.attention_mask b) = n /\
  List.length (Batch.video_mask b) = n.

(** A model that answers with one embedding row per item of the batch. *)
Definition one_row_per_item {Row P}
  (get_sequence_visual_output :
     XCLIP Row P -> Batch.t Row -> (list Row * list Row) * list Row)
  (net : XCLIP Row P) : Prop :=
  forall b,
    let n := List.length (Batch.is_query b) in
    List.length (fst (fst (get_sequence_visual_output net b))) = n /\
    List.length (snd (fst (get_sequence_visual_output net b))) = n /\
    List.length (snd (get_sequence_visual_output net b)) = n.

(** The module fields that no hook other than [configure_optimizers] and
    the phase-start hooks may change. *)
Definition same_setup {Row P} (m m' : XCLIPLitModule Row P) : Prop :=
  task_config m' = task_config m /\
  model m' = model m /\
  trainer m' = trainer m.

(** The six running means of the validation recalls. *)
Definition val_recalls : list metric_attr :=
  [val_m1_recall_at_1; val_m1_recall_at_5; val_m1_recall_at_10;
   val_m2_recall_at_1; val_m2_recall_at_5; val_m2_recall_at_10].

(** The six running means fed at test epoch end. *)
Definition test_means : list metric_attr :=
  [test_m2_recall_at_1; test_m2_recall_at_5; test_m2_recall_at_10;
   test_m2_median; test_n_seq; test_n_vid].

(** The concatenated tensors line up: the three id columns with each
    other and with both masks, the visual tensors with the query mask and
    the sequence tensors with the pool mask. *)
Definition aligned {Row} (outputs : list (StepOutput Row)) : Prop :=
  let n := List.length (cat recipe_id outputs) in
  List.length (cat kitchen_id outputs) = n /\
  List.length (cat ap_id outputs) = n /\
  List.length (cat is_query outputs) = n /\
  List.length (cat is_pool outputs) = n /\
  List.length (cat visual_output outputs) = n /\
  List.length (cat video_mask outputs) = n /\
  List.length (cat sequence_output outputs) = n /\
  List.length (cat seq_features outputs) = n /\
  List.length (cat attention_mask outputs) = n.


Module StepExamples.

(** A batch holding a single item. *)
Definition batch (row : nat) (query pool : bool) (id : Z) : Batch.t nat :=
  Batch.mk [row] [row] [query] [pool] [id] [0%Z] [0%Z] [row] [row].

(** A model whose loss is the first input id and whose embeddings are
    the batch's input ids and video rows, one row per item. *)
Definition forward (net : XCLIP nat nat) (b : Batch.t nat) : Q :=
  inject_Z (Z.of_nat (hd 0%nat (Batch.input_ids b))).

(** [l] cut or padded with zeros to [n] rows. *)
Definition fit (n : nat) (l : list nat) : list nat :=
  firstn n (l ++ repeat 0%nat n).

Definition get_sequence_visual_output (net : XCLIP nat nat)
  (b : Batch.t nat) : (list nat * list nat) * list nat :=
  let n := List.length (Batch.is_query b) in
  ((fit n (Batch.input_ids b), fit n (Batch.input_ids b)),
   fit n (Batch.video b)).

Definition batches : list (Batch.t nat) :=
  [batch 7 true false 1; batch 8 false true 1; batch 9 false true 2].

(** A process with the given configuration, model, rank, world size,
    recorded outputs and running means, and no call made yet. *)
Definition start (c : TaskConfig.t) (m : Net nat nat) (rank size : nat)
  (valid test : list (StepOutput nat)) (means : metric_attr -> MeanMetric)
  : State nat nat :=
  {| self := {| task_config := c; model := m;
                trainer := {| global_rank := rank; world_size := size |};
                valid_step_outputs := valid;
                test_step_outputs := test;
                metrics := means |};
     calls := [] |}.

(** Running means that all hold one earlier value. *)
Definition used : metric_attr -> MeanMetric := fun _ => [5%Q].

(** A scorer that reports the three M1 recalls only. *)
Definition m1_only_scorer (m : Tensor2) (pool query : list (Z * Z * Z))
  (stage : string) : gmap string Q :=
  list_to_map [("M1-R1", 1%Q); ("M1-R5", 1%Q); ("M1-R10", 1%Q)].

End StepExamples.

(** ** Vocabulary for the statements below *)

(** The six logging calls that close [on_validation_epoch_end]. *)
Definition validation_log_calls {Row} : list (Event Row) :=
  [ log_call "val/M1-R@1" val_m1_recall_at_1 true false
      (Some false) (Some true);
    log_call "val/M1-R@5" val_m1_recall_at_5 true false
      (Some false) (Some true);
    log_call "val/M1-R@10" val_m1_recall_at_10 true false
      (Some false) (Some true);
    log_call "val/M2-R@1" val_m2_recall_at_1 true false
      (Some false) (Some true);
    log_call "val/M2-R@5" val_m2_recall_at_5 true false
      (Some false) (Some true);
    log_call "val/M2-R@10" val_m2_recall_at_10 true false
      (Some false) (Some true) ].

(** The six logging calls that close [on_test_epoch_end]. *)
Definition test_log_calls {Row} : list (Event Row) :=
  [ log_call "test/M2-R@1" test_m2_recall_at_1 false false None None;
    log_call "test/M2-R@5" test_m2_recall_at_5 false false None None;
    log_call "test/M2-R@10" test_m2_recall_at_10 false false None None;
    log_call "test/M2-median" test_m2_median false false None None;
    log_call "test/n_seq" test_n_seq false false None None;
    log_call "test/n_vid" test_n_vid false false None None ].

(** The rows of [x] whose flag is set, for a mask of the right length. *)
Fixpoint masked {A} (x : list A) (mask : list bool) : list A :=
  match x, mask with
  | a :: x', b :: mask' => if b then a :: masked x' mask' else masked x' mask'
  | _, _ => []
  end.

(** A batch whose ten tensors agree on the batch size. *)
Definition consistent {Row} (o : StepOutput Row) : Prop :=
  let n := List.length (is_query o) in
  List.length (sequence_output o) = n /\
  List.length (seq_features o) = n /\
  List.length (visual_output o) = n /\
  List.length (is_pool o) = n /\
  List.length (recipe_id o) = n /\
  List.length (kitchen_id o) = n /\
  List.length (ap_id o) = n /\
  List.length (attention_mask o) = n /\
  List.length (video_mask o) = n.

(** Modelled from the spec: the orientation of the logits returned by
    [get_similarity_logits], whose code ([modeling_xclip.py]) is not
    part of the sources at hand.  "The model produces (query-count x
    pool-count)": one row per visual (query) item it is given and one
    column per sequence (pool) item. *)
Definition logits_query_by_pool {Row P} (net : XCLIP Row P) : Prop :=
  forall seq feat vis amask vmask lt,
    shape (fst (get_similarity_logits net seq feat vis amask vmask lt))
    = (List.length vis, List.length seq).

(** A family of lists no two of which share an element. *)
Definition pairwise_disjoint {A} (ls : list (list A)) : Prop :=
  forall i j l1 l2 x,
    i <> j -> ls !! i = Some l1 -> ls !! j = Some l2 ->
    In x l1 -> In x l2 -> False.

(** * Properties *)

(** ** Optimizer construction *)

Section OptimizerFacts.
Context {Row P : Type}.

Lemma filter_split_perm {A} (f : A -> bool) (l : list A) :
  Permutation (List.filter f l ++ List.filter (fun a => negb (f a)) l) l.
Proof.
  induction l as [|a l IH]; simpl; [constructor|].
  destruct (f a); simpl.
  - now constructor.
  - symmetry. apply Permutation_cons_app. now symmetry.
Qed.

Lemma four_groups_perm (po : list (string * P)) :
  Permutation (decay_clip_param_tp po ++ decay_noclip_param_tp po
               ++ no_decay_clip_param_tp po ++ no_decay_noclip_param_tp po)
              po.
Proof.
  unfold decay_clip_param_tp, decay_noclip_param_tp,
    no_decay_clip_param_tp, no_decay_noclip_param_tp.
  rewrite app_assoc.
  rewrite (filter_split_perm (fun np => contains "clip." (fst np))
             (decay_param_tp po)).
  rewrite (filter_split_perm (fun np => contains "clip." (fst np))
             (no_decay_param_tp po)).
  rewrite Permutation_app_comm.
  apply (filter_split_perm (fun np => any_in no_decay (fst np)) po).
Qed.

Lemma in_decay_clip (po : list (string * P)) np :
  In np (decay_clip_param_tp po) <->
  In np po /\ any_in no_decay (fst np) = false
  /\ contains "clip." (fst np) = true.
Proof.
  unfold decay_clip_param_tp, decay_param_tp.
  rewrite !filter_In, negb_true_iff. tauto.
Qed.

Lemma in_decay_noclip (po : list (string * P)) np :
  In np (decay_noclip_param_tp po) <->
  In np po /\ any_in no_decay (fst np) = false
  /\ contains "clip." (fst np) = false.
Proof.
  unfold decay_noclip_param_tp, decay_param_tp.
  rewrite !filter_In, !negb_true_iff. tauto.
Qed.

Lemma in_no_decay_clip (po : list (string * P)) np :
  In np (no_decay_clip_param_tp po) <->
  In np po /\ any_in no_decay (fst np) = true
  /\ contains "clip." (fst np) = true.
Proof.
  unfold no_decay_clip_param_tp, no_decay_param_tp.
  rewrite !filter_In. tauto.
Qed.

Lemma in_no_decay_noclip (po : list (string * P)) np :
  In np (no_decay_noclip_param_tp po) <->
  In np po /\ any_in no_decay (fst np) = true
  /\ contains "clip." (fst np) = false.
Proof.
  unfold no_decay_noclip_param_tp, no_decay_param_tp.
  rewrite !filter_In, negb_true_iff. tauto.
Qed.

Lemma four_groups_disjoint (po : list (string * P)) :
  pairwise_disjoint
    [decay_clip_param_tp po; decay_noclip_param_tp po;
     no_decay_clip_param_tp po; no_decay_noclip_param_tp po].
Proof.
  intros i j l1 l2 x Hij Hi Hj H1 H2.
  destruct i as [|[|[|[|i]]]]; simpl in Hi; try discriminate;
    destruct j as [|[|[|[|j]]]]; simpl in Hj; try discriminate;
    try (now elim Hij);
    injection Hi as <-; injection Hj as <-;
    repeat match goal with
    | H : In _ (decay_clip_param_tp _) |- _ => apply in_decay_clip in H
    | H : In _ (decay_noclip_param_tp _) |- _ => apply in_decay_noclip in H
    | H : In _ (no_decay_clip_param_tp _) |- _ => apply in_no_decay_clip in H
    | H : In _ (no_decay_noclip_param_tp _) |- _ =>
        apply in_no_decay_noclip in H
    end;
    destruct H1 as (_ & ? & ?); destruct H2 as (_ & ? & ?); congruence.
Qed.

(** With a non-zero accumulation step count the construction succeeds;
    the optimizer holds the four groups built from the unwrapped model's
    named parameters, and the module keeps the unwrapped model. *)
Lemma configure_optimizers_ok (s : State Row P) :
  TaskConfig.gradient_accumulation_steps (task_config (self s)) <> 0%Z ->
  exists opt s',
    configure_optimizers s = (Ok opt, s') /\
    BertAdam.param_groups opt =
      optimizer_grouped_parameters
        (named_parameters_of (unwrap (model (self s))))
        (task_config (self s)) /\
    BertAdam.lr opt = TaskConfig.lr (task_config (self s)) /\
    num_train_optimization_steps (task_config (self s))
      = Ok (BertAdam.t_total opt).
Proof.
  intros Hgas. apply Z.eqb_neq in Hgas.
  unfold configure_optimizers, bind, get_self, lift, modify_self, ret.
  unfold num_train_optimization_steps, truediv. rewrite Hgas.
  destruct s as [me tr]. destruct me as [c m t v te mt]. simpl.
  destruct m as [n|n]; simpl; eexists _, _; repeat split; reflexivity.
Qed.

(** C6. For every list of (name, parameter) pairs held by the model,
    [configure_optimizers] hands the optimizer four groups that partition
    the list: the groups are pairwise disjoint, together they are a
    rearrangement of the whole list, and membership is decided by the
    no-decay test and the [clip.] test on the name.  The two decay groups
    carry weight decay 0.2 and the two no-decay groups 0.0; the two
    backbone groups run at [lr * coef_lr] and the other two at the base
    learning rate. *)
Theorem parameter_groups_partition (s : State Row P)
  (po : list (string * P)) :
  named_parameters_of (unwrap (model (self s))) = po ->
  TaskConfig.gradient_accumulation_steps (task_config (self s)) <> 0%Z ->
  let c := task_config (self s) in
  exists opt s' tp1 tp2 tp3 tp4,
    configure_optimizers s = (Ok opt, s') /\
    map ParamGroup.params (BertAdam.param_groups opt)
      = [map snd tp1; map snd tp2; map snd tp3; map snd tp4] /\
    Permutation (tp1 ++ tp2 ++ tp3 ++ tp4) po /\
    pairwise_disjoint [tp1; tp2; tp3; tp4] /\
    (forall np, In np tp1 <->
       In np po /\ any_in no_decay (fst np) = false
       /\ contains "clip." (fst np) = true) /\
    (forall np, In np tp2 <->
       In np po /\ any_in no_decay (fst np) = false
       /\ contains "clip." (fst np) = false) /\
    (forall np, In np tp3 <->
       In np po /\ any_in no_decay (fst np) = true
       /\ contains "clip." (fst np) = true) /\
    (forall np, In np tp4 <->
       In np po /\ any_in no_decay (fst np) = true
       /\ contains "clip." (fst np) = false) /\
    map ParamGroup.weight_decay (BertAdam.param_groups opt)
      = [0.2%Q; 0.2%Q; 0.0%Q; 0.0%Q] /\
    map (BertAdam.group_lr opt) (BertAdam.param_groups opt)
      = [(TaskConfig.lr c * TaskConfig.coef_lr c)%Q; TaskConfig.lr c;
         (TaskConfig.lr c * TaskConfig.coef_lr c)%Q; TaskConfig.lr c].
Proof.
  intros Hpo Hgas c.
  destruct (configure_optimizers_ok s Hgas) as (opt & s' & Hrun & Hg & Hlr & _).
  rewrite Hpo in Hg.
  exists opt, s', (decay_clip_param_tp po), (decay_noclip_param_tp po),
    (no_decay_clip_param_tp po), (no_decay_noclip_param_tp po).
  split; [exact Hrun|].
  split; [now rewrite Hg|].
  split; [apply four_groups_perm|].
  split; [apply four_groups_disjoint|].
  split; [apply in_decay_clip|].
  split; [apply in_decay_noclip|].
  split; [apply in_no_decay_clip|].
  split; [apply in_no_decay_noclip|].
  split; [now rewrite Hg|].
  rewrite Hg. unfold BertAdam.group_lr. simpl. now rewrite Hlr.
Qed.

(** C5 (amended). The backbone marker is the fixed substring [clip.] and
    the no-decay markers are the fixed list [no_decay].  For the names
    clip.layer.weight, clip.layer.bias, fusion.weight, fusion.bias the
    optimizer receives four groups of exactly one parameter each: the
    weights with decay 0.2, the biases with decay 0.0, the two [clip.]
    parameters at [lr * coef_lr] and the two fusion parameters at the
    base learning rate. *)
Theorem parameter_groups_clip_example (s : State Row P) (p1 p2 p3 p4 : P) :
  named_parameters_of (unwrap (model (self s)))
    = [("clip.layer.weight", p1); ("clip.layer.bias", p2);
       ("fusion.weight", p3); ("fusion.bias", p4)] ->
  TaskConfig.gradient_accumulation_steps (task_config (self s)) <> 0%Z ->
  let c := task_config (self s) in
  exists opt s',
    configure_optimizers s = (Ok opt, s') /\
    BertAdam.param_groups opt
      = [ ParamGroup.mk [p1] 0.2%Q
            (Some (TaskConfig.lr c * TaskConfig.coef_lr c)%Q);
          ParamGroup.mk [p3] 0.2%Q None;
          ParamGroup.mk [p2] 0.0%Q
            (Some (TaskConfig.lr c * TaskConfig.coef_lr c)%Q);
          ParamGroup.mk [p4] 0.0%Q None ] /\
    map (BertAdam.group_lr opt) (BertAdam.param_groups opt)
      = [(TaskConfig.lr c * TaskConfig.coef_lr c)%Q; TaskConfig.lr c;
         (TaskConfig.lr c * TaskConfig.coef_lr c)%Q; TaskConfig.lr c].
Proof.
  intros Hpo Hgas c.
  destruct (configure_optimizers_ok s Hgas) as (opt & s' & Hrun & Hg & Hlr & _).
  rewrite Hpo in Hg.
  exists opt, s'. split; [exact Hrun|].
  assert (Hgroups : BertAdam.param_groups opt
      = [ ParamGroup.mk [p1] 0.2%Q
            (Some (TaskConfig.lr c * TaskConfig.coef_lr c)%Q);
          ParamGroup.mk [p3] 0.2%Q None;
          ParamGroup.mk [p2] 0.0%Q
            (Some (TaskConfig.lr c * TaskConfig.coef_lr c)%Q);
          ParamGroup.mk [p4] 0.0%Q None ]) by (rewrite Hg; reflexivity).
  split; [exact Hgroups|].
  rewrite Hgroups. unfold BertAdam.group_lr. simpl. now rewrite Hlr.
Qed.

End OptimizerFacts.

(** The rounding-up idiom does give the ceiling when the division is the
    integer one. *)
Lemma floor_idiom_is_ceiling (a b : Z) :
  (0 < b)%Z -> ((a + b - 1) / b)%Z = ceil_div a b.
Proof.
  intros Hb. unfold ceil_div, Qceiling.
  assert (E : (- (inject_Z a / inject_Z b) == inject_Z (- a) / inject_Z b)%Q).
  { rewrite inject_Z_opp. field. intros H.
    apply (inject_Z_injective b 0) in H. lia. }
  rewrite (Qfloor_comp _ _ E), <- Zdiv_Qdiv.
  assert (Ha : a = (b * (a / b) + a mod b)%Z) by (apply Z.div_mod; lia).
  pose proof (Z.mod_pos_bound a b Hb) as Hm.
  destruct (Z.eq_dec (a mod b)%Z 0%Z) as [Hz|Hnz].
  - rewrite <- (Z.div_unique (a + b - 1)%Z b (a / b)%Z (b - 1)%Z) by lia.
    rewrite <- (Z.div_unique (- a)%Z b (- (a / b))%Z 0%Z) by lia. lia.
  - rewrite <- (Z.div_unique (a + b - 1)%Z b (a / b + 1)%Z (a mod b - 1)%Z)
      by lia.
    rewrite <- (Z.div_unique (- a)%Z b (- (a / b) - 1)%Z (b - a mod b)%Z)
      by lia.
    lia.
Qed.

(** C4. With 10 training items, 4 accumulation steps and 1 epoch the
    step count handed to the optimizer is 13/4 = 3.25: the division is
    the true division, so the result is not the integer
    ceil(10 / 4) * 1 = 3 that the rounding-up idiom is written for. *)
Theorem optimization_steps_not_ceiling :
  let c := Examples.cfg 10 4 1 in
  exists q opt s',
    num_train_optimization_steps c = Ok q /\
    configure_optimizers (Examples.fresh 0 1 [] []) = (Ok opt, s') /\
    BertAdam.t_total opt = q /\
    (q == 3.25)%Q /\
    spec_total_steps c = 3%Z /\
    ~ (q == inject_Z (spec_total_steps c))%Q /\
    (forall z : Z, ~ (q == inject_Z z)%Q).
Proof.
  exists ((13 # 4) * 1)%Q. eexists _, _. split; [reflexivity|].
  split; [reflexivity|]. split; [reflexivity|].
  split; [reflexivity|]. split; [reflexivity|].
  split.
  - intros H. vm_compute in H. discriminate.
  - intros z H. unfold Qeq in H. simpl in H. lia.
Qed.

(** C5, as stated, fails: none of the specification's names contains
    [clip.], so both backbone groups stay empty and the other two hold
    two parameters each. *)
Lemma parameter_groups_spec_names_counterexample :
  let groups :=
    optimizer_grouped_parameters Examples.spec_names (Examples.cfg 10 4 1) in
  map ParamGroup.params groups = [[]; [1; 3]; []; [2; 4]]%nat /\
  ~ Forall (fun g => List.length (ParamGroup.params g) = 1%nat) groups.
Proof.
  split; [reflexivity|].
  intros H. apply Forall_inv in H. discriminate H.
Qed.

Lemma parameter_groups_clip_example_witness :
  exists opt s',
    configure_optimizers (Examples.fresh 0 1 [] []) = (Ok opt, s') /\
    BertAdam.param_groups opt
      = [ ParamGroup.mk [1%nat] 0.2%Q (Some (0.0001 * 0.001)%Q);
          ParamGroup.mk [3%nat] 0.2%Q None;
          ParamGroup.mk [2%nat] 0.0%Q (Some (0.0001 * 0.001)%Q);
          ParamGroup.mk [4%nat] 0.0%Q None ] /\
    map (BertAdam.group_lr opt) (BertAdam.param_groups opt)
      = [(0.0001 * 0.001)%Q; 0.0001%Q; (0.0001 * 0.001)%Q; 0.0001%Q].
Proof.
  apply (parameter_groups_clip_example (Examples.fresh 0 1 [] [])
           1%nat 2%nat 3%nat 4%nat).
  - reflexivity.
  - simpl. lia.
Defined.

Lemma parameter_groups_partition_witness :
  exists opt s' tp1 tp2 tp3 tp4,
    configure_optimizers (Examples.fresh 0 1 [] []) = (Ok opt, s') /\
    map ParamGroup.params (BertAdam.param_groups opt)
      = [map snd tp1; map snd tp2; map snd tp3; map snd tp4] /\
    Permutation (tp1 ++ tp2 ++ tp3 ++ tp4) Examples.clip_names /\
    pairwise_disjoint [tp1; tp2; tp3; tp4].
Proof.
  destruct (parameter_groups_partition (Examples.fresh 0 1 [] [])
              Examples.clip_names)
    as (opt & s' & tp1 & tp2 & tp3 & tp4 & H1 & H2 & H3 & H4 & _).
  - reflexivity.
  - simpl. lia.
  - exists opt, s', tp1, tp2, tp3, tp4. auto.
Defined.

(** ** The distributed gather *)

Section GatherFacts.
Context {Row P : Type}.
Implicit Types (d : Dist Row) (obj : list (StepOutput Row)).
Implicit Types (gl : list (option (list (StepOutput Row)))).
Implicit Types (s : State Row P).

Lemma fill_gather_list_S d me obj n gl :
  fill_gather_list d me obj (S n) gl
  = <[n := Some (contribution d me obj n)]> (fill_gather_list d me obj n gl).
Proof.
  unfold fill_gather_list. rewrite seq_S, fold_left_app. reflexivity.
Qed.

Lemma length_fill_gather_list d me obj n gl :
  List.length (fill_gather_list d me obj n gl) = List.length gl.
Proof.
  induction n as [|n IH]; [reflexivity|].
  rewrite fill_gather_list_S, length_insert. exact IH.
Qed.

Lemma lookup_fill_gather_list_lt d me obj n gl i :
  i < n -> i < List.length gl ->
  fill_gather_list d me obj n gl !! i = Some (Some (contribution d me obj i)).
Proof.
  induction n as [|n IH]; intros Hi Hlen; [lia|].
  rewrite fill_gather_list_S.
  destruct (decide (i = n)) as [->|Hne].
  - apply list_lookup_insert_eq. now rewrite length_fill_gather_list.
  - rewrite list_lookup_insert_ne by congruence. apply IH; lia.
Qed.

Lemma fill_gather_list_replicate d me obj n :
  fill_gather_list d me obj n (replicate n None)
  = map (fun r => Some (contribution d me obj r)) (seq 0 n).
Proof.
  apply list_eq. intros i.
  destruct (decide (i < n)) as [Hlt|Hge].
  - rewrite lookup_fill_gather_list_lt by (rewrite ?length_replicate; lia).
    change (map ?f ?l) with (f <$> l).
    rewrite list_lookup_fmap, lookup_seq_lt by lia. reflexivity.
  - rewrite !lookup_ge_None_2; [reflexivity| |].
    + rewrite length_map, length_seq. lia.
    + rewrite length_fill_gather_list, length_replicate. lia.
Qed.

Lemma flatten_map_Some (xs : list (list (StepOutput Row))) :
  flatten (map Some xs) = Ok (concat xs).
Proof.
  induction xs as [|x xs IH]; simpl; [reflexivity|]. now rewrite IH.
Qed.

Lemma length_concat_uniform {A} (xs : list (list A)) (L : nat) :
  Forall (fun x => List.length x = L) xs ->
  List.length (concat xs) = List.length xs * L.
Proof.
  induction 1 as [|x xs Hx _ IH]; simpl; [reflexivity|].
  rewrite length_app, IH, Hx. reflexivity.
Qed.

Lemma lookup_concat_uniform {A} (xs : list (list A)) (L r i : nat) x :
  Forall (fun x => List.length x = L) xs ->
  xs !! r = Some x -> i < L ->
  concat xs !! (r * L + i) = x !! i.
Proof.
  intros Hall. revert r.
  induction Hall as [|y xs Hy _ IH]; intros r Hr Hi; [discriminate|].
  destruct r as [|r]; simpl in *.
  - injection Hr as ->. apply lookup_app_l. lia.
  - rewrite lookup_app_r by lia.
    replace (L + r * L + i - List.length y) with (r * L + i) by lia.
    now apply IH.
Qed.

(** On the coordinator the gather returns the per-rank objects
    concatenated in rank order and leaves the module untouched. *)
Lemma gather_outputs_coordinator d obj s :
  is_global_zero (trainer (self s)) = true ->
  _gather_outputs d obj s
  = (Ok (Some (concat (map (contribution d 0 obj)
                         (seq 0 (world_size (trainer (self s))))))),
     {| self := self s;
        calls := calls s ++ [gather_object_call obj true 0] |}).
Proof.
  intros Hz. unfold is_global_zero in Hz.
  unfold _gather_outputs, gather_object, bind, get_self, emit, lift, ret.
  unfold is_global_zero. simpl. rewrite Hz. simpl.
  rewrite length_replicate, Nat.ltb_irrefl.
  apply Nat.eqb_eq in Hz. rewrite Hz.
  rewrite fill_gather_list_replicate.
  rewrite <- (List.map_map (contribution d 0 obj) Some). simpl.
  now rewrite flatten_map_Some.
Qed.

(** Off the coordinator the gather only sends and returns [None]. *)
Lemma gather_outputs_other d obj s :
  is_global_zero (trainer (self s)) = false ->
  _gather_outputs d obj s
  = (Ok None,
     {| self := self s;
        calls := calls s ++ [gather_object_call obj false 0] |}).
Proof.
  intros Hz. unfold is_global_zero in Hz.
  unfold _gather_outputs, gather_object, bind, get_self, emit, lift, ret.
  unfold is_global_zero. simpl. rewrite Hz. simpl. now rewrite Hz.
Qed.

(** C3. With [W] processes each contributing a list of length [L], the
    coordinator's call returns the concatenation of the [W] lists in
    rank order: [W * L] elements, element [i] of rank [r] at position
    [r * L + i].  Every other process's call returns [None]. *)
Theorem gather_outputs_rank_order d obj s (W L : nat) :
  world_size (trainer (self s)) = W ->
  (forall r, r < W ->
     List.length (contribution d (global_rank (trainer (self s))) obj r) = L) ->
  (is_global_zero (trainer (self s)) = true ->
   exists out,
     fst (_gather_outputs d obj s) = Ok (Some out) /\
     out = concat (map (contribution d 0 obj) (seq 0 W)) /\
     List.length out = W * L /\
     forall r i, r < W -> i < L ->
       out !! (r * L + i) = contribution d 0 obj r !! i) /\
  (is_global_zero (trainer (self s)) = false ->
   fst (_gather_outputs d obj s) = Ok None).
Proof.
  intros HW Hlen. split; intros Hz.
  - rewrite gather_outputs_coordinator by exact Hz. rewrite HW.
    eexists. split; [reflexivity|]. split; [reflexivity|].
    assert (Hme : global_rank (trainer (self s)) = 0)
      by (now apply Nat.eqb_eq).
    rewrite Hme in Hlen.
    assert (Hall : Forall (fun x => List.length x = L)
                     (map (contribution d 0 obj) (seq 0 W))).
    { apply List.Forall_forall. intros x Hx. apply in_map_iff in Hx.
      destruct Hx as (r & <- & Hr). apply in_seq in Hr. apply Hlen. lia. }
    split.
    + rewrite (length_concat_uniform _ L Hall), length_map, length_seq.
      reflexivity.
    + intros r i Hr Hi. apply (lookup_concat_uniform _ L); [exact Hall| |exact Hi].
      change (map ?f ?l) with (f <$> l).
      rewrite list_lookup_fmap, lookup_seq_lt by lia. reflexivity.
  - now rewrite gather_outputs_other.
Qed.

End GatherFacts.

(** ** The epoch-end handlers *)

Section EpochEndFacts.
Context {Row P : Type}.
Variable compute_scores :
  Tensor2 -> list (Z * Z * Z) -> list (Z * Z * Z) -> string -> gmap string Q.
Implicit Types (d : Dist Row) (s : State Row P) (me : XCLIPLitModule Row P).

Ltac expose_gather :=
  cbv beta iota zeta
    delta [on_validation_epoch_end on_test_epoch_end bind get_self self calls].

Ltac run :=
  cbv beta iota zeta
    delta [bind get_self lift unpack3 getitem update modify_self emit ret
           raise log log_on_epoch self calls].

Ltac lookup_step :=
  match goal with
  | |- context [?m !! ?k] =>
      let E := fresh "E" in destruct (m !! k) eqn:E; run
  end.

(** The guard for an empty list is a bare [return]. *)
Lemma compute_v2t_metrics_empty me device :
  _compute_v2t_metrics compute_scores me (Some []) device = Ok None.
Proof. reflexivity. Qed.

(** Passing the non-coordinator's gather result would raise at [len]. *)
Lemma compute_v2t_metrics_None me device :
  _compute_v2t_metrics compute_scores me None device = Raise TypeError.
Proof. reflexivity. Qed.

Lemma validation_epoch_end_other d s :
  is_global_zero (trainer (self s)) = false ->
  on_validation_epoch_end compute_scores d s
  = (Ok tt,
     {| self := self s;
        calls := (calls s
                  ++ [gather_object_call (valid_step_outputs (self s)) false 0])
                 ++ validation_log_calls |}).
Proof.
  intros Hz. destruct s as [me cl]. simpl in Hz. expose_gather.
  rewrite gather_outputs_other by exact Hz. run. rewrite Hz. run.
  unfold validation_log_calls. now rewrite <- !app_assoc.
Qed.

Lemma test_epoch_end_other d s :
  is_global_zero (trainer (self s)) = false ->
  on_test_epoch_end compute_scores d s
  = (Ok tt,
     {| self := self s;
        calls := (calls s
                  ++ [gather_object_call (test_step_outputs (self s)) false 0])
                 ++ test_log_calls |}).
Proof.
  intros Hz. destruct s as [me cl]. simpl in Hz. expose_gather.
  rewrite gather_outputs_other by exact Hz. run. rewrite Hz. run.
  unfold test_log_calls. now rewrite <- !app_assoc.
Qed.

(** On the coordinator the validation handler does not look at what the
    other ranks sent. *)
Lemma validation_epoch_end_ignores_peers d d' s :
  is_global_zero (trainer (self s)) = true ->
  on_validation_epoch_end compute_scores d s
  = on_validation_epoch_end compute_scores d' s.
Proof.
  intros Hz. destruct s as [me cl]. expose_gather.
  rewrite !gather_outputs_coordinator by exact Hz. reflexivity.
Qed.

(** The coordinator's validation run when the scorer's result carries
    the six keys: the values are appended to the six running means, in
    order, and the six logging calls follow. *)
Lemma validation_epoch_end_ok d s scores n_seq n_vid v1 v2 v3 v4 v5 v6 :
  is_global_zero (trainer (self s)) = true ->
  _compute_v2t_metrics compute_scores (self s)
    (Some (valid_step_outputs (self s))) None
    = Ok (Some (scores, n_seq, n_vid)) ->
  scores !! "M1-R1" = Some v1 -> scores !! "M1-R5" = Some v2 ->
  scores !! "M1-R10" = Some v3 -> scores !! "M2-R1" = Some v4 ->
  scores !! "M2-R5" = Some v5 -> scores !! "M2-R10" = Some v6 ->
  on_validation_epoch_end compute_scores d s
  = (Ok tt,
     {| self :=
          set_metrics
            (updated val_m2_recall_at_10 v6
               (updated val_m2_recall_at_5 v5
                  (updated val_m2_recall_at_1 v4
                     (updated val_m1_recall_at_10 v3
                        (updated val_m1_recall_at_5 v2
                           (updated val_m1_recall_at_1 v1
                              (metrics (self s))))))))
            (self s);
        calls := (calls s
                  ++ [gather_object_call (valid_step_outputs (self s)) true 0])
                 ++ validation_log_calls |}).
Proof.
  intros Hz Hc H1 H2 H3 H4 H5 H6. destruct s as [me cl].
  cbn [self] in Hz, Hc.
  expose_gather. rewrite gather_outputs_coordinator by exact Hz.
  run. rewrite Hz, Hc. run.
  rewrite H1. run. rewrite H2. run. rewrite H3. run.
  rewrite H4. run. rewrite H5. run. rewrite H6. run.
  unfold validation_log_calls. rewrite <- !app_assoc.
  destruct me; reflexivity.
Qed.



(** The calls made by the validation handler on any rank: the gather
    first; then either the six logging calls, or an exception raised in
    the coordinator-only block. *)
Lemma validation_epoch_end_trace d s :
  let g := gather_object_call (valid_step_outputs (self s))
             (is_global_zero (trainer (self s))) 0 in
  match on_validation_epoch_end compute_scores d s with
  | (Ok _, s') => calls s' = (calls s ++ [g]) ++ validation_log_calls
  | (Raise _, s') =>
      is_global_zero (trainer (self s)) = true /\ calls s' = calls s ++ [g]
  end.
Proof.
  destruct (is_global_zero (trainer (self s))) eqn:Hz; cbv zeta.
  - destruct s as [me cl]. cbn [self] in Hz.
    expose_gather. rewrite gather_outputs_coordinator by exact Hz.
    run. rewrite Hz.
    destruct (_compute_v2t_metrics compute_scores me
                (Some (valid_step_outputs me)) None)
      as [[[[scores n_seq] n_vid]|]|e]; run; [|now split|now split].
    repeat (lookup_step; [|now split]).
    unfold validation_log_calls. now rewrite <- !app_assoc.
  - now rewrite validation_epoch_end_other.
Qed.


(** With nothing recorded the coordinator's validation handler stops at
    the unpacking of the scorer result. *)
Lemma validation_epoch_end_empty d s :
  is_global_zero (trainer (self s)) = true ->
  valid_step_outputs (self s) = [] ->
  on_validation_epoch_end compute_scores d s
  = (Raise TypeError,
     {| self := self s;
        calls := calls s ++ [gather_object_call [] true 0] |}).
Proof.
  intros Hz He. destruct s as [me cl]. cbn [self] in Hz, He.
  expose_gather. rewrite gather_outputs_coordinator by exact Hz.
  run. rewrite Hz, He. reflexivity.
Qed.

(** C1. At validation epoch end every process calls the gather.  On the
    coordinator the outcome of the handler is the same whatever the other
    processes contributed, and when the scorer result carries the six
    keys, the six running means receive the values computed from the
    coordinator's own [valid_step_outputs]. *)
Theorem validation_metrics_from_local_outputs d s :
  (exists rest,
     calls (snd (on_validation_epoch_end compute_scores d s))
     = calls s
       ++ gather_object_call (valid_step_outputs (self s))
            (is_global_zero (trainer (self s))) 0 :: rest) /\
  (is_global_zero (trainer (self s)) = true ->
   (forall d',
      on_validation_epoch_end compute_scores d' s
      = on_validation_epoch_end compute_scores d s) /\
   (forall scores n_seq n_vid v1 v2 v3 v4 v5 v6,
      _compute_v2t_metrics compute_scores (self s)
        (Some (valid_step_outputs (self s))) None
        = Ok (Some (scores, n_seq, n_vid)) ->
      scores !! "M1-R1" = Some v1 -> scores !! "M1-R5" = Some v2 ->
      scores !! "M1-R10" = Some v3 -> scores !! "M2-R1" = Some v4 ->
      scores !! "M2-R5" = Some v5 -> scores !! "M2-R10" = Some v6 ->
      exists s',
        on_validation_epoch_end compute_scores d s = (Ok tt, s') /\
        metrics (self s')
        = updated val_m2_recall_at_10 v6
            (updated val_m2_recall_at_5 v5
               (updated val_m2_recall_at_1 v4
                  (updated val_m1_recall_at_10 v3
                     (updated val_m1_recall_at_5 v2
                        (updated val_m1_recall_at_1 v1
                           (metrics (self s))))))))).
Proof.
  split.
  - pose proof (validation_epoch_end_trace d s) as H. cbv zeta in H.
    destruct (on_validation_epoch_end compute_scores d s) as [[u|e] s'];
      cbn [snd].
    + rewrite H, <- app_assoc. eexists. reflexivity.
    + destruct H as [_ ->]. eexists. reflexivity.
  - intros Hz. split.
    + intros d'. now apply validation_epoch_end_ignores_peers.
    + intros scores n_seq n_vid v1 v2 v3 v4 v5 v6 Hc H1 H2 H3 H4 H5 H6.
      eexists. split.
      * eapply validation_epoch_end_ok; eassumption.
      * reflexivity.
Qed.


(** C7. On the coordinator, with an empty local list, the metric
    computation returns [None] and the handler raises when it unpacks
    that result into three names: the gather has been called, no metric
    is updated and no logging call is made. *)
Theorem validation_epoch_end_empty_raises d s :
  is_global_zero (trainer (self s)) = true ->
  valid_step_outputs (self s) = [] ->
  _compute_v2t_metrics compute_scores (self s)
    (Some (valid_step_outputs (self s))) None = Ok None /\
  on_validation_epoch_end compute_scores d s
  = (Raise TypeError,
     {| self := self s;
        calls := calls s ++ [gather_object_call [] true 0] |}).
Proof.
  intros Hz He. split.
  - now rewrite He.
  - now apply validation_epoch_end_empty.
Qed.


(** C10. Off the coordinator the gather returns [None] and the test
    handler completes: the module is unchanged, so no metric was
    computed or updated, and the only calls are the gather and the six
    logging calls.  Handing that [None] to the metric computation would
    have raised. *)
Theorem test_epoch_end_off_coordinator d s :
  is_global_zero (trainer (self s)) = false ->
  fst (_gather_outputs d (test_step_outputs (self s)) s) = Ok None /\
  on_test_epoch_end compute_scores d s
  = (Ok tt,
     {| self := self s;
        calls := (calls s
                  ++ [gather_object_call (test_step_outputs (self s)) false 0])
                 ++ test_log_calls |}) /\
  _compute_v2t_metrics compute_scores (self s) None None = Raise TypeError.
Proof.
  intros Hz. split; [|split].
  - now rewrite gather_outputs_other.
  - now apply test_epoch_end_other.
  - reflexivity.
Qed.

End EpochEndFacts.

(** ** The arguments handed to the scorer *)

Section ScorerFacts.
Context {Row P : Type}.
Variable compute_scores :
  Tensor2 -> list (Z * Z * Z) -> list (Z * Z * Z) -> string -> gmap string Q.

Lemma mask_select_ok {A} (x : list A) (mask : list bool) :
  List.length x = List.length mask ->
  mask_select x mask = Ok (masked x mask).
Proof.
  revert mask. induction x as [|a x IH]; intros [|b mask] Hlen;
    simpl in *; try discriminate; [reflexivity|].
  rewrite IH by lia. now destruct b.
Qed.

Lemma length_masked {A} (x : list A) (mask : list bool) :
  List.length x = List.length mask ->
  List.length (masked x mask) = sum_flags mask.
Proof.
  unfold sum_flags. revert mask.
  induction x as [|a x IH]; intros [|b mask] Hlen;
    simpl in *; try discriminate; [reflexivity|].
  destruct b; simpl; rewrite IH by lia; reflexivity.
Qed.

Lemma stack3_T_ok (a b c : list Z) :
  List.length a = List.length b -> List.length b = List.length c ->
  exists ids, stack3_T a b c = Ok ids /\ List.length ids = List.length a.
Proof.
  revert b c. induction a as [|x a IH]; intros [|y b] [|z c] Hab Hbc;
    simpl in *; try discriminate.
  - now exists [].
  - destruct (IH b c) as (ids & -> & Hlen); [lia|lia|].
    exists ((x, y, z) :: ids). simpl. now rewrite Hlen.
Qed.

Lemma cat_lengths (outputs : list (StepOutput Row)) :
  Forall consistent outputs ->
  let n := List.length (cat is_query outputs) in
  List.length (cat sequence_output outputs) = n /\
  List.length (cat seq_features outputs) = n /\
  List.length (cat visual_output outputs) = n /\
  List.length (cat is_pool outputs) = n /\
  List.length (cat recipe_id outputs) = n /\
  List.length (cat kitchen_id outputs) = n /\
  List.length (cat ap_id outputs) = n /\
  List.length (cat attention_mask outputs) = n /\
  List.length (cat video_mask outputs) = n.
Proof.
  unfold cat. induction 1 as [|o outputs Ho _ IH]; simpl.
  - repeat split; reflexivity.
  - rewrite !length_app. unfold consistent in Ho. cbv zeta in Ho, IH.
    destruct Ho as (?&?&?&?&?&?&?&?&?).
    destruct IH as (?&?&?&?&?&?&?&?&?).
    repeat split; congruence.
Qed.

(** C8. The raw logits returned by the model are transposed before
    they reach [compute_scores]: the matrix handed over is the model's
    result with its two axes swapped, together with the pool identity
    keys (second argument) and the query identity keys (third argument).
    The model is called with the pool-selected sequence tensors and the
    query-selected visual tensors and, as the specification has it,
    answers with a (query-count, pool-count) matrix; the scorer therefore
    receives a (pool-count, query-count) matrix, whose rows line up with
    the pool identity keys and whose columns line up with the query
    identity keys. *)
Theorem scorer_receives_pool_by_query (me : XCLIPLitModule Row P)
  (net : XCLIP Row P) (outputs : list (StepOutput Row)) :
  model me = Bare net ->
  named_parameters net <> [] ->
  outputs <> [] ->
  Forall consistent outputs ->
  logits_query_by_pool net ->
  let is_q := cat is_query outputs in
  let is_p := cat is_pool outputs in
  let raw :=
    fst (get_similarity_logits net
           (masked (cat sequence_output outputs) is_p)
           (masked (cat seq_features outputs) is_p)
           (masked (cat visual_output outputs) is_q)
           (masked (cat attention_mask outputs) is_p)
           (masked (cat video_mask outputs) is_q)
           (loose_type net)) in
  exists call ids,
    v2t_scorer_call me outputs None
      = Ok (call, sum_flags is_p, sum_flags is_q) /\
    _compute_v2t_metrics compute_scores me (Some outputs) None
      = Ok (Some (compute_scores (call_logits call) (call_pool_ids call)
                    (call_query_ids call)
                    (TaskConfig.stage (task_config me)),
                  sum_flags is_p, sum_flags is_q)) /\
    call_logits call = T raw /\
    (forall i j, at_ (call_logits call) j i = at_ raw i j) /\
    shape raw = (sum_flags is_q, sum_flags is_p) /\
    shape (call_logits call)
      = (List.length (call_pool_ids call),
         List.length (call_query_ids call)) /\
    stack3_T (cat recipe_id outputs) (cat kitchen_id outputs)
             (cat ap_id outputs) = Ok ids /\
    call_pool_ids call = masked ids is_p /\
    call_query_ids call = masked ids is_q /\
    List.length (call_pool_ids call) = sum_flags is_p /\
    List.length (call_query_ids call) = sum_flags is_q.
Proof.
  intros Hm Hparams Hne Hwf Hshape is_q is_p raw.
  destruct (cat_lengths outputs Hwf) as (Hs & Hf & Hv & Hp & Hr & Hk & Ha & Ham & Hvm).
  fold is_q in Hs, Hf, Hv, Hp, Hr, Hk, Ha, Ham, Hvm. fold is_p in Hp.
  destruct (stack3_T_ok (cat recipe_id outputs) (cat kitchen_id outputs)
              (cat ap_id outputs)) as (ids & Hids & Hlen); [congruence..|].
  assert (Hcall : v2t_scorer_call me outputs None
    = Ok ({| call_logits := T raw;
             call_pool_ids := masked ids is_p;
             call_query_ids := masked ids is_q;
             call_stage := TaskConfig.stage (task_config me) |},
          sum_flags is_p, sum_flags is_q)).
  { unfold v2t_scorer_call, next_parameter, parameters. rewrite Hm.
    destruct (named_parameters net) as [|np nps]; [now elim Hparams|].
    cbn [map rbind model_attr]. rewrite Hids. cbn [rbind].
    fold is_q. fold is_p.
    rewrite (mask_select_ok (cat visual_output outputs) is_q) by congruence.
    rewrite (mask_select_ok (cat video_mask outputs) is_q) by congruence.
    rewrite (mask_select_ok (cat sequence_output outputs) is_p) by congruence.
    rewrite (mask_select_ok (cat seq_features outputs) is_p) by congruence.
    rewrite (mask_select_ok (cat attention_mask outputs) is_p) by congruence.
    cbn [rbind].
    rewrite (mask_select_ok ids is_p) by congruence.
    rewrite (mask_select_ok ids is_q) by congruence.
    reflexivity. }
  assert (Hraw : shape raw = (sum_flags is_q, sum_flags is_p)).
  { unfold raw. rewrite Hshape.
    rewrite !length_masked by congruence. reflexivity. }
  eexists _, ids. split; [exact Hcall|].
  split.
  { unfold _compute_v2t_metrics. rewrite Hcall.
    destruct outputs; [now elim Hne|]. reflexivity. }
  cbn [call_logits call_pool_ids call_query_ids].
  split; [reflexivity|]. split; [reflexivity|]. split; [exact Hraw|].
  split.
  { unfold T. cbn [shape]. rewrite Hraw.
    rewrite !length_masked by congruence. reflexivity. }
  split; [exact Hids|]. split; [reflexivity|]. split; [reflexivity|].
  split; apply length_masked; congruence.
Qed.

End ScorerFacts.

(** ** Concrete runs *)

Import Examples.


Lemma gather_outputs_rank_order_witness :
  exists out,
    fst (_gather_outputs (peers [pool_item_1; pool_item_2])
           [query_item; pool_item_1] (fresh 0 2 [] []))
      = Ok (Some out) /\
    out = [query_item; pool_item_1; pool_item_1; pool_item_2] /\
    List.length out = 4.
Proof.
  destruct (gather_outputs_rank_order (P := nat)
              (peers [pool_item_1; pool_item_2])
              [query_item; pool_item_1] (fresh 0 2 [] []) 2 2)
    as [Hzero _].
  - reflexivity.
  - intros r Hr. destruct r as [|[|r]]; [reflexivity|reflexivity|lia].
  - destruct (Hzero eq_refl) as (out & Hret & Hout & Hlen & _).
    exists out. split; [exact Hret|]. split; [exact Hout|]. exact Hlen.
Defined.

Lemma validation_metrics_from_local_outputs_witness :
  exists s',
    on_validation_epoch_end scorer (peers [pool_item_2])
      (fresh 0 2 [query_item; pool_item_1] []) = (Ok tt, s') /\
    metrics (self s') val_m1_recall_at_1 = [1%Q] /\
    on_validation_epoch_end scorer (peers [])
      (fresh 0 2 [query_item; pool_item_1] [])
    = on_validation_epoch_end scorer (peers [pool_item_2])
        (fresh 0 2 [query_item; pool_item_1] []).
Proof.
  destruct (validation_metrics_from_local_outputs scorer
              (peers [pool_item_2]) (fresh 0 2 [query_item; pool_item_1] []))
    as [_ Hzero].
  destruct (Hzero eq_refl) as [Hind Hok].
  destruct (Hok (scorer (mkTensor2 (1, 1) (fun _ _ => 0%Q)) [] [] "")
              1 1 1%Q 1%Q 1%Q 1%Q 1%Q 1%Q)
    as (s' & Hrun & Hmet); try reflexivity.
  exists s'. split; [exact Hrun|]. split.
  - rewrite Hmet. reflexivity.
  - apply Hind.
Defined.


Lemma validation_epoch_end_empty_raises_witness :
  fst (on_validation_epoch_end scorer (peers [pool_item_2])
         (fresh 0 2 [] []))
  = Raise TypeError.
Proof.
  destruct (validation_epoch_end_empty_raises scorer (peers [pool_item_2])
              (fresh 0 2 [] []) eq_refl eq_refl) as [_ H].
  rewrite H. reflexivity.
Defined.

Lemma scorer_receives_pool_by_query_witness :
  exists call,
    v2t_scorer_call (self (fresh 0 1 [] []))
      [query_item; pool_item_1; pool_item_2] None = Ok (call, 2, 1) /\
    shape (call_logits call) = (2, 1) /\
    List.length (call_pool_ids call) = 2 /\
    List.length (call_query_ids call) = 1.
Proof.
  destruct (scorer_receives_pool_by_query scorer (self (fresh 0 1 [] []))
              (net clip_names) [query_item; pool_item_1; pool_item_2])
    as (call & ids & Hcall & _ & _ & _ & _ & Hshape & _ & _ & _ & Hp & Hq).
  - reflexivity.
  - discriminate.
  - discriminate.
  - repeat constructor.
  - intros seq feat vis amask vmask lt. reflexivity.
  - exists call. split; [exact Hcall|].
    rewrite Hshape, Hq, Hp. repeat split; reflexivity.
Defined.


Lemma test_epoch_end_off_coordinator_witness :
  fst (on_test_epoch_end scorer (peers [pool_item_2])
         (fresh 1 2 [] [query_item; pool_item_1]))
  = Ok tt.
Proof.
  destruct (test_epoch_end_off_coordinator scorer (peers [pool_item_2])
              (fresh 1 2 [] [query_item; pool_item_1]) eq_refl)
    as (_ & H & _).
  rewrite H. reflexivity.
Defined.

(** * Further properties *)

(** ** The gather, for arbitrary per-rank lists *)

Section GatherMore.
Context {Row P : Type}.
Implicit Types (d : Dist Row) (obj : list (StepOutput Row)).
Implicit Types (s : State Row P).

Lemma length_concat_sum {A} (xs : list (list A)) :
  List.length (concat xs) = list_sum (map (@List.length A) xs).
Proof.
  induction xs as [|x xs IH]; simpl; [reflexivity|].
  now rewrite length_app, IH.
Qed.

(** X1. On the coordinator the gather loses nothing and invents nothing,
    whatever the sizes of the per-rank lists: the result has as many
    elements as all contributions together, and an output is in the
    result exactly when some rank below the world size contributed it. *)
Theorem gather_outputs_collects_all d obj s :
  is_global_zero (trainer (self s)) = true ->
  let W := world_size (trainer (self s)) in
  exists out,
    fst (_gather_outputs d obj s) = Ok (Some out) /\
    List.length out
      = list_sum (map (fun r => List.length (contribution d 0 obj r))
                      (seq 0 W)) /\
    (forall x, In x out <-> exists r, r < W /\ In x (contribution d 0 obj r)).
Proof.
  intros Hz W. rewrite gather_outputs_coordinator by exact Hz.
  eexists. split; [reflexivity|]. fold W. split.
  - rewrite length_concat_sum, List.map_map. reflexivity.
  - intros x. rewrite in_concat. split.
    + intros (l & Hl & Hx). apply in_map_iff in Hl.
      destruct Hl as (r & <- & Hr). apply in_seq in Hr.
      exists r. split; [lia|exact Hx].
    + intros (r & Hr & Hx). exists (contribution d 0 obj r). split; [|exact Hx].
      apply in_map_iff. exists r. split; [reflexivity|]. apply in_seq. lia.
Qed.

(** X2. The gather is a pure exchange: on every rank it leaves the
    module as it was and makes exactly one collective call, with
    destination 0; and in a single-process run it hands the
    coordinator's own list back unchanged. *)
Theorem gather_outputs_exchange_only d obj s :
  self (snd (_gather_outputs d obj s)) = self s /\
  calls (snd (_gather_outputs d obj s))
    = calls s
      ++ [gather_object_call obj (is_global_zero (trainer (self s))) 0] /\
  (is_global_zero (trainer (self s)) = true ->
   world_size (trainer (self s)) = 1 ->
   fst (_gather_outputs d obj s) = Ok (Some obj)).
Proof.
  destruct (is_global_zero (trainer (self s))) eqn:Hz.
  - rewrite gather_outputs_coordinator by exact Hz.
    split; [reflexivity|]. split; [reflexivity|].
    intros _ HW. rewrite HW. simpl. now rewrite app_nil_r.
  - rewrite gather_outputs_other by exact Hz.
    split; [reflexivity|]. split; [reflexivity|]. discriminate.
Qed.

End GatherMore.

(** ** The per-batch hooks *)

Section StepFacts.
Context {Row P : Type}.
Variable forward : XCLIP Row P -> Batch.t Row -> Q.
Variable get_sequence_visual_output :
  XCLIP Row P -> Batch.t Row -> (list Row * list Row) * list Row.
Implicit Types (s : State Row P) (net : XCLIP Row P) (b : Batch.t Row).

Ltac hooks :=
  cbv beta iota zeta
    delta [validation_step test_step training_step model_step
           on_validation_start on_test_start on_train_start reset log_with
           bind get_self lift update modify_self emit ret raise
           model_attr self calls].

Lemma validation_step_bare net b i s :
  model (self s) = Bare net ->
  validation_step forward get_sequence_visual_output b i s
  = (Ok tt,
     {| self :=
          set_valid_step_outputs
            (valid_step_outputs (self s)
             ++ [step_output (get_sequence_visual_output net b) b])
            (set_metrics (updated val_loss (forward net b) (metrics (self s)))
               (self s));
        calls := calls s
                 ++ [log_call "val/loss" val_loss true false
                       (Some true) (Some true)] |}).
Proof.
  intros Hm. destruct s as [me cl]. cbn [self] in Hm. hooks.
  rewrite Hm. reflexivity.
Qed.

Lemma test_step_bare net b i s :
  model (self s) = Bare net ->
  test_step get_sequence_visual_output b i s
  = (Ok tt,
     {| self :=
          set_test_step_outputs
            (test_step_outputs (self s)
             ++ [step_output (get_sequence_visual_output net b) b])
            (self s);
        calls := calls s |}).
Proof.
  intros Hm. destruct s as [me cl]. cbn [self] in Hm. hooks.
  rewrite Hm. reflexivity.
Qed.

Lemma training_step_run b i s :
  training_step forward b i s
  = (Ok (model_forward forward (model (self s)) b),
     {| self :=
          set_metrics
            (updated train_loss (model_forward forward (model (self s)) b)
               (metrics (self s)))
            (self s);
        calls := calls s
                 ++ [log_call "train/loss" train_loss true false
                       (Some true) (Some true)] |}).
Proof. destruct s as [me cl]. reflexivity. Qed.

(** The validation loop from an arbitrary state. *)
Lemma run_validation_steps net (bs : list (Batch.t Row)) i s :
  model (self s) = Bare net ->
  exists s',
    run_steps (validation_step forward get_sequence_visual_output) bs i s
      = (Ok tt, s') /\
    valid_step_outputs (self s')
      = valid_step_outputs (self s)
        ++ map (fun b => step_output (get_sequence_visual_output net b) b) bs /\
    test_step_outputs (self s') = test_step_outputs (self s) /\
    same_setup (self s) (self s') /\
    (forall a,
       metrics (self s') a
       = if decide (a = val_loss)
         then metrics (self s) a ++ map (forward net) bs
         else metrics (self s) a) /\
    calls s'
      = calls s
        ++ repeat (log_call "val/loss" val_loss true false
                     (Some true) (Some true))
                  (List.length bs).
Proof.
  revert i s. induction bs as [|b bs IH]; intros i s Hm.
  - exists s. split; [reflexivity|]. rewrite !app_nil_r.
    split; [reflexivity|]. split; [reflexivity|].
    split; [repeat split|]. split; [|reflexivity].
    intros a. destruct (decide (a = val_loss)); now rewrite ?app_nil_r.
  - cbn [run_steps]. unfold bind at 1.
    rewrite (validation_step_bare net b i s Hm).
    match goal with
    | |- context [run_steps _ bs (S i) ?s1] =>
        destruct (IH (S i) s1) as (s' & Hrun & Hv & Ht & Hset & Hmet & Hc);
          [exact Hm|]
    end.
    exists s'. split; [exact Hrun|].
    cbn [self calls valid_step_outputs test_step_outputs
         set_valid_step_outputs set_metrics metrics] in Hv, Ht, Hmet, Hc.
    split; [rewrite Hv, <- app_assoc; reflexivity|].
    split; [exact Ht|]. split; [exact Hset|]. split.
    + intros a. rewrite Hmet. unfold updated.
      destruct (decide (a = val_loss)); [|reflexivity].
      now rewrite <- app_assoc.
    + rewrite Hc, <- app_assoc. reflexivity.
Qed.

(** The test loop from an arbitrary state. *)
Lemma run_test_steps net (bs : list (Batch.t Row)) i s :
  model (self s) = Bare net ->
  run_steps (test_step get_sequence_visual_output) bs i s
  = (Ok tt,
     {| self :=
          set_test_step_outputs
            (test_step_outputs (self s)
             ++ map (fun b => step_output (get_sequence_visual_output net b) b)
                    bs)
            (self s);
        calls := calls s |}).
Proof.
  revert i s. induction bs as [|b bs IH]; intros i s Hm.
  - destruct s as [[c m t v te mt] cl]. cbn. now rewrite app_nil_r.
  - cbn [run_steps]. unfold bind at 1.
    rewrite (test_step_bare net b i s Hm).
    rewrite IH by exact Hm.
    destruct s as [[c m t v te mt] cl]. cbn. now rewrite <- app_assoc.
Qed.

End StepFacts.

(** ** When the metric computation succeeds *)

Section ScorerMore.
Context {Row P : Type}.
Variable compute_scores :
  Tensor2 -> list (Z * Z * Z) -> list (Z * Z * Z) -> string -> gmap string Q.
Implicit Types (me : XCLIPLitModule Row P) (net : XCLIP Row P).
Implicit Types (outputs : list (StepOutput Row)).


Lemma mask_select_Raise {A} (x : list A) (mask : list bool) e :
  mask_select x mask = Raise e -> e = IndexError.
Proof.
  revert mask. induction x as [|a x IH]; intros [|b mask] H;
    simpl in *; try discriminate; try (injection H as <-; reflexivity).
  destruct (mask_select x mask) as [r'|e'] eqn:E; [discriminate|].
  injection H as <-. now apply (IH mask).
Qed.


Lemma stack3_T_Raise (a b c : list Z) e :
  stack3_T a b c = Raise e -> e = RuntimeError.
Proof.
  revert b c. induction a as [|x a IH]; intros [|y b] [|z c] H;
    simpl in *; try discriminate; try (injection H as <-; reflexivity).
  destruct (stack3_T a b c) as [r|e'] eqn:E; [discriminate|].
  injection H as <-. now apply (IH b c).
Qed.


Lemma consistent_aligned outputs :
  Forall consistent outputs -> aligned outputs.
Proof.
  intros Hwf. destruct (cat_lengths outputs Hwf) as (?&?&?&?&?&?&?&?&?).
  unfold aligned. cbv zeta. repeat split; congruence.
Qed.


End ScorerMore.

(** ** Whole phases *)

Section PhaseFacts.
Context {Row P : Type}.
Variable forward : XCLIP Row P -> Batch.t Row -> Q.
Variable get_sequence_visual_output :
  XCLIP Row P -> Batch.t Row -> (list Row * list Row) * list Row.
Variable compute_scores :
  Tensor2 -> list (Z * Z * Z) -> list (Z * Z * Z) -> string -> gmap string Q.
Implicit Types (s : State Row P) (net : XCLIP Row P) (d : Dist Row).
Implicit Types (bs : list (Batch.t Row)).

Lemma step_output_consistent net b :
  one_row_per_item get_sequence_visual_output net ->
  consistent_batch b ->
  consistent (step_output (get_sequence_visual_output net b) b).
Proof.
  intros Hrows (Hp & Hr & Hk & Ha & Ham & Hvm).
  destruct (Hrows b) as (Hs & Hf & Hv).
  unfold step_output.
  destruct (get_sequence_visual_output net b) as [[so sf] vo].
  cbn [fst snd] in Hs, Hf, Hv. unfold consistent. cbn. auto 10.
Qed.

(** The start hook followed by the validation loop. *)
Lemma validation_loop_run net bs s :
  model (self s) = Bare net ->
  exists s',
    bind on_validation_start
      (fun _ => run_steps
                  (validation_step forward get_sequence_visual_output) bs 0) s
      = (Ok tt, s') /\
    valid_step_outputs (self s')
      = map (fun b => step_output (get_sequence_visual_output net b) b) bs /\
    test_step_outputs (self s') = test_step_outputs (self s) /\
    same_setup (self s) (self s') /\
    metrics (self s') val_loss
      = metrics (self s) val_loss ++ map (forward net) bs /\
    (forall a, a <> val_loss -> metrics (self s') a = metrics (self s) a) /\
    calls s'
      = calls s
        ++ repeat (log_call "val/loss" val_loss true false
                     (Some true) (Some true))
                  (List.length bs).
Proof.
  intros Hm. unfold bind, on_validation_start, modify_self.
  match goal with
  | |- context [run_steps _ bs 0 ?s0] =>
      destruct (run_validation_steps forward get_sequence_visual_output
                  net bs 0 s0)
        as (s' & Hrun & Hv & Ht & Hset & Hmet & Hc); [exact Hm|]
  end.
  exists s'. split; [exact Hrun|].
  cbn [self calls valid_step_outputs test_step_outputs
       set_valid_step_outputs metrics] in Hv, Ht, Hmet, Hc.
  split; [exact Hv|]. split; [exact Ht|]. split; [exact Hset|].
  split; [|split; [|exact Hc]].
  - rewrite Hmet. now destruct (decide (val_loss = val_loss)).
  - intros a Ha. rewrite Hmet. now destruct (decide (a = val_loss)).
Qed.

(** X5. A test run records the very list of outputs a validation run
    records for the same batches, but computes no loss: it changes no
    running mean, makes no logging call and leaves the validation
    outputs alone. *)
Theorem test_loop_records_like_validation net bs s :
  model (self s) = Bare net ->
  exists sv st,
    bind on_validation_start
      (fun _ => run_steps
                  (validation_step forward get_sequence_visual_output) bs 0) s
      = (Ok tt, sv) /\
    bind on_test_start
      (fun _ => run_steps (test_step get_sequence_visual_output) bs 0) s
      = (Ok tt, st) /\
    test_step_outputs (self st) = valid_step_outputs (self sv) /\
    valid_step_outputs (self st) = valid_step_outputs (self s) /\
    metrics (self st) = metrics (self s) /\
    calls st = calls s.
Proof.
  intros Hm.
  destruct (validation_loop_run net bs s Hm)
    as (sv & Hrun & Hv & _).
  exists sv. eexists. split; [exact Hrun|]. split.
  - unfold bind at 1. unfold on_test_start, modify_self.
    rewrite (run_test_steps get_sequence_visual_output net) by exact Hm.
    reflexivity.
  - rewrite Hv. destruct s as [[c m t v te mt] cl]. cbn.
    repeat split; reflexivity.
Qed.

(** Consistent batches give consistent recorded outputs. *)
Lemma validation_loop_consistent net bs s :
  model (self s) = Bare net ->
  one_row_per_item get_sequence_visual_output net ->
  Forall consistent_batch bs ->
  exists s',
    bind on_validation_start
      (fun _ => run_steps
                  (validation_step forward get_sequence_visual_output) bs 0) s
      = (Ok tt, s') /\
    Forall consistent (valid_step_outputs (self s')) /\
    aligned (valid_step_outputs (self s')).
Proof.
  intros Hm Hrows Hbs.
  destruct (validation_loop_run net bs s Hm)
    as (s' & Hrun & Hv & _).
  exists s'. split; [exact Hrun|].
  assert (Hall : Forall consistent (valid_step_outputs (self s'))).
  { rewrite Hv. apply List.Forall_forall. intros o Ho.
    apply in_map_iff in Ho. destruct Ho as (b & <- & Hb).
    apply step_output_consistent; [exact Hrows|].
    rewrite List.Forall_forall in Hbs. now apply Hbs. }
  split; [exact Hall|]. now apply consistent_aligned.
Qed.

(** X4. A validation run records exactly one output per batch, in batch
    order, whatever the list held before: the start hook clears it and
    every step appends.  The losses go to [val_loss] in the same order,
    each step logs once, and the test outputs, the other running means
    and the module's configuration, model and trainer are untouched. *)
Theorem validation_loop_records_batches net bs s :
  model (self s) = Bare net ->
  exists s',
    bind on_validation_start
      (fun _ => run_steps
                  (validation_step forward get_sequence_visual_output) bs 0) s
      = (Ok tt, s') /\
    valid_step_outputs (self s')
      = map (fun b => step_output (get_sequence_visual_output net b) b) bs /\
    test_step_outputs (self s') = test_step_outputs (self s) /\
    same_setup (self s) (self s') /\
    metrics (self s') val_loss
      = metrics (self s) val_loss ++ map (forward net) bs /\
    (forall a, a <> val_loss -> metrics (self s') a = metrics (self s) a) /\
    calls s'
      = calls s
        ++ repeat (log_call "val/loss" val_loss true false
                     (Some true) (Some true))
                  (List.length bs).
Proof. exact (validation_loop_run net bs s). Qed.

(** X6. If the model answers with one embedding row per item and every
    batch agrees with itself on the batch size, then every output a
    validation run records is consistent, and so the recorded list lines
    up for the metric computation. *)
Theorem validation_loop_outputs_consistent net bs s :
  model (self s) = Bare net ->
  one_row_per_item get_sequence_visual_output net ->
  Forall consistent_batch bs ->
  exists s',
    bind on_validation_start
      (fun _ => run_steps
                  (validation_step forward get_sequence_visual_output) bs 0) s
      = (Ok tt, s') /\
    Forall consistent (valid_step_outputs (self s')) /\
    aligned (valid_step_outputs (self s')).
Proof. exact (validation_loop_consistent net bs s). Qed.

Lemma validation_phase_split d bs s :
  validation_phase forward get_sequence_visual_output compute_scores d bs s
  = bind
      (bind on_validation_start
         (fun _ => run_steps
                     (validation_step forward get_sequence_visual_output)
                     bs 0))
      (fun _ => on_validation_epoch_end compute_scores d) s.
Proof. reflexivity. Qed.

Lemma test_phase_split d bs s :
  test_phase get_sequence_visual_output compute_scores d bs s
  = bind
      (bind on_test_start
         (fun _ => run_steps (test_step get_sequence_visual_output) bs 0))
      (fun _ => on_test_epoch_end compute_scores d) s.
Proof. reflexivity. Qed.


(** X8. A validation run without any batch: on the coordinator it
    raises [TypeError] after the gather, whatever outputs an earlier run
    had left behind, since the start hook empties the list; on every
    other process it completes and makes the six logging calls. *)
Theorem validation_phase_without_batches d s :
  (is_global_zero (trainer (self s)) = true ->
   validation_phase forward get_sequence_visual_output compute_scores d [] s
   = (Raise TypeError,
      {| self := set_valid_step_outputs [] (self s);
         calls := calls s ++ [gather_object_call [] true 0] |})) /\
  (is_global_zero (trainer (self s)) = false ->
   validation_phase forward get_sequence_visual_output compute_scores d [] s
   = (Ok tt,
      {| self := set_valid_step_outputs [] (self s);
         calls := (calls s ++ [gather_object_call [] false 0])
                  ++ validation_log_calls |})).
Proof.
  split; intros Hz; rewrite validation_phase_split; unfold bind at 1;
    unfold bind at 1; unfold on_validation_start, modify_self;
    cbn [run_steps ret].
  - now rewrite validation_epoch_end_empty.
  - now rewrite validation_epoch_end_other.
Qed.

(** X9. Neither phase depends on the outputs left in its list by an
    earlier run: replacing the list before the phase starts changes
    nothing of the outcome or of the final state. *)
Theorem phases_ignore_leftover_outputs d bs s (l : list (StepOutput Row)) :
  validation_phase forward get_sequence_visual_output compute_scores d bs
    {| self := set_valid_step_outputs l (self s); calls := calls s |}
  = validation_phase forward get_sequence_visual_output compute_scores d bs s
  /\
  test_phase get_sequence_visual_output compute_scores d bs
    {| self := set_test_step_outputs l (self s); calls := calls s |}
  = test_phase get_sequence_visual_output compute_scores d bs s.
Proof.
  split.
  - rewrite !validation_phase_split. unfold bind at 1 3.
    unfold bind at 1 2. unfold on_validation_start, modify_self.
    destruct s as [[c m t v te mt] cl]. reflexivity.
  - rewrite !test_phase_split. unfold bind at 1 3.
    unfold bind at 1 2. unfold on_test_start, modify_self.
    destruct s as [[c m t v te mt] cl]. reflexivity.
Qed.

(** X10. Training steps: each step returns the loss the model computed
    for its batch; over a loop the losses reach [train_loss] in batch
    order, one logging call is made per step, and nothing else of the
    module changes: not the recorded outputs, not the other running
    means, not the model. *)
Theorem training_loop_accumulates_losses bs i s :
  (forall b j s0,
     fst (training_step forward b j s0)
     = Ok (model_forward forward (model (self s0)) b)) /\
  exists s',
    run_steps (training_step forward) bs i s = (Ok tt, s') /\
    metrics (self s') train_loss
      = metrics (self s) train_loss
        ++ map (model_forward forward (model (self s))) bs /\
    (forall a, a <> train_loss -> metrics (self s') a = metrics (self s) a) /\
    valid_step_outputs (self s') = valid_step_outputs (self s) /\
    test_step_outputs (self s') = test_step_outputs (self s) /\
    same_setup (self s) (self s') /\
    calls s'
      = calls s
        ++ repeat (log_call "train/loss" train_loss true false
                     (Some true) (Some true))
                  (List.length bs).
Proof.
  split; [intros b j s0; now rewrite training_step_run|].
  revert i s. induction bs as [|b bs IH]; intros i s.
  - exists s. split; [reflexivity|]. rewrite !app_nil_r.
    repeat split; reflexivity.
  - cbn [run_steps]. unfold bind at 1. rewrite training_step_run.
    match goal with
    | |- context [run_steps _ bs (S i) ?s1] =>
        destruct (IH (S i) s1)
          as (s' & Hrun & Hl & Hoth & Hv & Ht & (Hcfg & Hmod & Htr) & Hc)
    end.
    exists s'. split; [exact Hrun|].
    cbn [self calls valid_step_outputs test_step_outputs task_config model
         trainer set_metrics metrics] in Hl, Hoth, Hv, Ht, Hcfg, Hmod, Htr, Hc.
    split; [|split; [|split; [|split; [|split]]]].
    + rewrite Hl. unfold updated.
      destruct (decide (train_loss = train_loss)); [|congruence].
      now rewrite <- app_assoc.
    + intros a Ha. rewrite (Hoth a Ha). unfold updated.
      now destruct (decide (a = train_loss)).
    + exact Hv.
    + exact Ht.
    + repeat split; assumption.
    + rewrite Hc, <- app_assoc. reflexivity.
Qed.

End PhaseFacts.

(** ** More on the epoch-end handlers *)

Section EpochEndMore.
Context {Row P : Type}.
Variable compute_scores :
  Tensor2 -> list (Z * Z * Z) -> list (Z * Z * Z) -> string -> gmap string Q.
Implicit Types (d : Dist Row) (s : State Row P) (me : XCLIPLitModule Row P).

Ltac to_gather :=
  cbv beta iota zeta
    delta [on_validation_epoch_end on_test_epoch_end bind get_self self calls].

Ltac steps :=
  cbv beta iota zeta
    delta [bind get_self lift unpack3 getitem update modify_self emit ret
           raise log log_on_epoch self calls].

Ltac next_key :=
  match goal with
  | |- context [?m !! ?k] =>
      let E := fresh "E" in destruct (m !! k) eqn:E; steps
  end.

(** What a handler's final state keeps of the initial one. *)
Ltac frame_goal :=
  cbn [snd self];
  split; [repeat split|];
  (split; [reflexivity|]); (split; [reflexivity|]);
  let a := fresh "a" in
  let Ha := fresh "Ha" in
  intros a Ha; cbn [metrics set_metrics]; unfold updated;
  destruct a; try reflexivity; exfalso; apply Ha; cbn; tauto.

(** X11. The epoch-end handlers only ever touch their own running
    means.  On every rank and whatever the outcome, an exception
    included, [on_validation_epoch_end] keeps the configuration, the
    model, the trainer and both output lists, and changes no running
    mean outside the six validation recalls; [on_test_epoch_end] does
    the same outside its six test means.  In particular neither handler
    empties the list it has scored. *)
Theorem epoch_end_handlers_frame d s :
  (let s' := snd (on_validation_epoch_end compute_scores d s) in
   same_setup (self s) (self s') /\
   valid_step_outputs (self s') = valid_step_outputs (self s) /\
   test_step_outputs (self s') = test_step_outputs (self s) /\
   forall a, ~ In a val_recalls -> metrics (self s') a = metrics (self s) a)
  /\
  (let s' := snd (on_test_epoch_end compute_scores d s) in
   same_setup (self s) (self s') /\
   valid_step_outputs (self s') = valid_step_outputs (self s) /\
   test_step_outputs (self s') = test_step_outputs (self s) /\
   forall a, ~ In a test_means -> metrics (self s') a = metrics (self s) a).
Proof.
  split; cbv zeta.
  - destruct (is_global_zero (trainer (self s))) eqn:Hz.
    + destruct s as [me cl]. cbn [self] in Hz.
      to_gather. rewrite gather_outputs_coordinator by exact Hz.
      steps. rewrite Hz.
      destruct (_compute_v2t_metrics compute_scores me
                  (Some (valid_step_outputs me)) None)
        as [[[[scores n_seq] n_vid]|]|e]; steps;
        [|frame_goal|frame_goal].
      repeat (next_key; [|frame_goal]). frame_goal.
    + rewrite validation_epoch_end_other by exact Hz. frame_goal.
  - destruct (is_global_zero (trainer (self s))) eqn:Hz.
    + destruct s as [me cl]. cbn [self] in Hz.
      to_gather. rewrite gather_outputs_coordinator by exact Hz.
      steps. rewrite Hz.
      match goal with
      | |- context [_compute_v2t_metrics ?c ?m ?o ?dv] =>
          destruct (_compute_v2t_metrics c m o dv)
            as [[[[scores n_seq] n_vid]|]|e]; steps;
            [|frame_goal|frame_goal]
      end.
      repeat (next_key; [|frame_goal]). frame_goal.
    + rewrite test_epoch_end_other by exact Hz. frame_goal.
Qed.

(** X12. A scorer result that lacks a key is not handled: if the three
    M1 keys are present and [M2-R1] is missing, the coordinator's
    validation handler raises [KeyError] for that key after it has
    already updated the three M1 means; the M2 means stay as they were
    and no logging call is made. *)
Theorem validation_epoch_end_missing_key d s scores n_seq n_vid v1 v2 v3 :
  is_global_zero (trainer (self s)) = true ->
  _compute_v2t_metrics compute_scores (self s)
    (Some (valid_step_outputs (self s))) None
    = Ok (Some (scores, n_seq, n_vid)) ->
  scores !! "M1-R1" = Some v1 -> scores !! "M1-R5" = Some v2 ->
  scores !! "M1-R10" = Some v3 -> scores !! "M2-R1" = None ->
  on_validation_epoch_end compute_scores d s
  = (Raise (KeyError "M2-R1"),
     {| self :=
          set_metrics
            (updated val_m1_recall_at_10 v3
               (updated val_m1_recall_at_5 v2
                  (updated val_m1_recall_at_1 v1 (metrics (self s)))))
            (self s);
        calls := calls s
                 ++ [gather_object_call (valid_step_outputs (self s))
                       true 0] |}).
Proof.
  intros Hz Hc H1 H2 H3 H4. destruct s as [me cl].
  cbn [self] in Hz, Hc.
  to_gather. rewrite gather_outputs_coordinator by exact Hz.
  steps. rewrite Hz, Hc. steps.
  rewrite H1. steps. rewrite H2. steps. rewrite H3. steps.
  rewrite H4. steps. destruct me; reflexivity.
Qed.

Lemma concat_all_nil {A} (f : nat -> list A) (W : nat) :
  (forall r, r < W -> f r = []) -> concat (map f (seq 0 W)) = [].
Proof.
  intros H. induction W as [|W IH]; [reflexivity|].
  rewrite seq_S, map_app, concat_app, IH by (intros; apply H; lia).
  cbn. rewrite H by lia. reflexivity.
Qed.

(** X13. The test handler has the same weakness as the validation
    handler: when no process has recorded any output, the gathered list
    is empty, the metric computation returns [None], and the coordinator
    raises [TypeError] at the unpacking, before any update or logging
    call. *)
Theorem test_epoch_end_nothing_recorded d s :
  is_global_zero (trainer (self s)) = true ->
  (forall r, r < world_size (trainer (self s)) ->
     contribution d 0 (test_step_outputs (self s)) r = []) ->
  on_test_epoch_end compute_scores d s
  = (Raise TypeError,
     {| self := self s;
        calls := calls s
                 ++ [gather_object_call (test_step_outputs (self s))
                       true 0] |}).
Proof.
  intros Hz Hall. destruct s as [me cl]. cbn [self] in Hz, Hall.
  to_gather. rewrite gather_outputs_coordinator by exact Hz.
  cbn [self]. rewrite (concat_all_nil _ _ Hall).
  steps. rewrite Hz. reflexivity.
Qed.

(** X14. The validation handler does not consume the outputs it scores:
    called a second time without a new start hook in between, it scores
    the same list again and every recall mean ends up with the same
    value twice. *)
Theorem validation_epoch_end_twice d d' s scores n_seq n_vid
  v1 v2 v3 v4 v5 v6 :
  is_global_zero (trainer (self s)) = true ->
  _compute_v2t_metrics compute_scores (self s)
    (Some (valid_step_outputs (self s))) None
    = Ok (Some (scores, n_seq, n_vid)) ->
  scores !! "M1-R1" = Some v1 -> scores !! "M1-R5" = Some v2 ->
  scores !! "M1-R10" = Some v3 -> scores !! "M2-R1" = Some v4 ->
  scores !! "M2-R5" = Some v5 -> scores !! "M2-R10" = Some v6 ->
  exists s',
    bind (on_validation_epoch_end compute_scores d)
      (fun _ => on_validation_epoch_end compute_scores d') s = (Ok tt, s') /\
    map (metrics (self s')) val_recalls
    = [metrics (self s) val_m1_recall_at_1 ++ [v1; v1];
       metrics (self s) val_m1_recall_at_5 ++ [v2; v2];
       metrics (self s) val_m1_recall_at_10 ++ [v3; v3];
       metrics (self s) val_m2_recall_at_1 ++ [v4; v4];
       metrics (self s) val_m2_recall_at_5 ++ [v5; v5];
       metrics (self s) val_m2_recall_at_10 ++ [v6; v6]].
Proof.
  intros Hz Hc H1 H2 H3 H4 H5 H6. unfold bind at 1.
  rewrite (validation_epoch_end_ok compute_scores d s scores n_seq n_vid
             v1 v2 v3 v4 v5 v6 Hz Hc H1 H2 H3 H4 H5 H6).
  match goal with
  | |- context [on_validation_epoch_end _ d' ?s1] =>
      rewrite (validation_epoch_end_ok compute_scores d' s1 scores n_seq n_vid
                 v1 v2 v3 v4 v5 v6 Hz Hc H1 H2 H3 H4 H5 H6)
  end.
  eexists. split; [reflexivity|].
  transitivity
    [(metrics (self s) val_m1_recall_at_1 ++ [v1]) ++ [v1];
     (metrics (self s) val_m1_recall_at_5 ++ [v2]) ++ [v2];
     (metrics (self s) val_m1_recall_at_10 ++ [v3]) ++ [v3];
     (metrics (self s) val_m2_recall_at_1 ++ [v4]) ++ [v4];
     (metrics (self s) val_m2_recall_at_5 ++ [v5]) ++ [v5];
     (metrics (self s) val_m2_recall_at_10 ++ [v6]) ++ [v6]];
    [reflexivity|].
  now rewrite <- !app_assoc.
Qed.

(** X15. [on_train_start] empties the six validation recall means and
    nothing else.  A validation epoch end that follows it on the
    coordinator therefore leaves each of them with exactly the one value
    just computed, whatever the sanity-check run had put there. *)
Theorem train_start_discards_sanity_values d s scores n_seq n_vid
  v1 v2 v3 v4 v5 v6 :
  (exists s0,
     on_train_start s = (Ok tt, s0) /\
     (forall a, In a val_recalls -> metrics (self s0) a = []) /\
     (forall a, ~ In a val_recalls ->
        metrics (self s0) a = metrics (self s) a) /\
     same_setup (self s) (self s0) /\
     valid_step_outputs (self s0) = valid_step_outputs (self s) /\
     test_step_outputs (self s0) = test_step_outputs (self s) /\
     calls s0 = calls s) /\
  (is_global_zero (trainer (self s)) = true ->
   _compute_v2t_metrics compute_scores (self s)
     (Some (valid_step_outputs (self s))) None
     = Ok (Some (scores, n_seq, n_vid)) ->
   scores !! "M1-R1" = Some v1 -> scores !! "M1-R5" = Some v2 ->
   scores !! "M1-R10" = Some v3 -> scores !! "M2-R1" = Some v4 ->
   scores !! "M2-R5" = Some v5 -> scores !! "M2-R10" = Some v6 ->
   exists s',
     bind on_train_start
       (fun _ => on_validation_epoch_end compute_scores d) s = (Ok tt, s') /\
     map (metrics (self s')) val_recalls
     = [[v1]; [v2]; [v3]; [v4]; [v5]; [v6]]).
Proof.
  split.
  - eexists. split; [reflexivity|]. cbn [self calls].
    split; [|split; [|split; [repeat split|repeat split]]].
    + intros a Ha. unfold val_recalls in Ha. cbn [In] in Ha.
      destruct Ha as [<-|[<-|[<-|[<-|[<-|[<-|[]]]]]]]; reflexivity.
    + intros a Ha. destruct a; try reflexivity; exfalso; apply Ha; cbn; tauto.
  - intros Hz Hc H1 H2 H3 H4 H5 H6. unfold bind at 1.
    change (on_train_start s) with
      (Ok tt,
       {| self :=
            set_metrics
              (cleared val_m2_recall_at_10
                 (cleared val_m2_recall_at_5
                    (cleared val_m2_recall_at_1
                       (cleared val_m1_recall_at_10
                          (cleared val_m1_recall_at_5
                             (cleared val_m1_recall_at_1
                                (metrics (self s))))))))
              (self s);
          calls := calls s |}).
    cbv beta iota.
    match goal with
    | |- context [on_validation_epoch_end _ d ?s1] =>
        rewrite (validation_epoch_end_ok compute_scores d s1 scores
                   n_seq n_vid v1 v2 v3 v4 v5 v6 Hz Hc H1 H2 H3 H4 H5 H6)
    end.
    eexists. split; reflexivity.
Qed.

End EpochEndMore.

(** ** More on the optimizer construction *)

Section OptimizerMore.
Context {Row P : Type}.
Implicit Types (s : State Row P) (po : list (string * P)).

(** X16. With zero gradient-accumulation steps the construction raises
    [ZeroDivisionError] at the step count, before the model is unwrapped
    or any group is built: the module is left exactly as it was. *)
Theorem configure_optimizers_zero_accumulation s :
  TaskConfig.gradient_accumulation_steps (task_config (self s)) = 0%Z ->
  configure_optimizers s = (Raise ZeroDivisionError, s).
Proof.
  intros Hgas.
  unfold configure_optimizers, bind, get_self, lift.
  unfold num_train_optimization_steps, truediv. rewrite Hgas.
  destruct s as [me cl]. reflexivity.
Qed.

(** The construction, given the step count. *)
Lemma configure_optimizers_run s q :
  num_train_optimization_steps (task_config (self s)) = Ok q ->
  configure_optimizers s
  = (Ok (BertAdam.mk
           (optimizer_grouped_parameters
              (named_parameters_of (unwrap (model (self s))))
              (task_config (self s)))
           (TaskConfig.lr (task_config (self s)))
           (TaskConfig.warmup_proportion (task_config (self s)))
           "warmup_cosine" 0.9%Q 0.98%Q 1e-6%Q q weight_decay 1.0%Q),
     {| self := if hasattr_module (model (self s))
                then set_model (unwrap (model (self s))) (self s)
                else self s;
        calls := calls s |}).
Proof.
  intros Hq. unfold configure_optimizers, bind, get_self, lift, modify_self, ret.
  rewrite Hq. destruct s as [[c m t v te mt] cl]. destruct m; reflexivity.
Qed.

(** X17. Unwrapping comes first: for a wrapped model the groups are
    built from the network's own parameter names, never from the
    [module.]-prefixed ones; the optimizer is the one the bare network
    gets, the module holds the bare network afterwards, and constructing
    again gives the same optimizer and changes nothing more. *)
Theorem configure_optimizers_unwraps s (n : XCLIP Row P) :
  model (self s) = Wrapped n ->
  TaskConfig.gradient_accumulation_steps (task_config (self s)) <> 0%Z ->
  exists opt s',
    configure_optimizers s = (Ok opt, s') /\
    BertAdam.param_groups opt
      = optimizer_grouped_parameters (named_parameters n)
          (task_config (self s)) /\
    self s' = set_model (Bare n) (self s) /\
    calls s' = calls s /\
    configure_optimizers
      {| self := set_model (Bare n) (self s); calls := calls s |}
      = (Ok opt, s') /\
    configure_optimizers s' = (Ok opt, s').
Proof.
  intros Hm Hgas.
  destruct (configure_optimizers_ok s Hgas) as (opt0 & _ & _ & _ & _ & Hq).
  set (q := BertAdam.t_total opt0) in Hq. clearbody q. clear opt0.
  eexists _, _. split; [exact (configure_optimizers_run s q Hq)|].
  rewrite Hm. cbn [hasattr_module unwrap named_parameters_of].
  split; [reflexivity|]. split; [reflexivity|]. split; [reflexivity|].
  split.
  - rewrite (configure_optimizers_run _ q) by exact Hq.
    destruct s as [[c m t v te mt] cl]. reflexivity.
  - rewrite (configure_optimizers_run _ q) by exact Hq.
    destruct s as [[c m t v te mt] cl]. reflexivity.
Qed.

Lemma filter_sublist {A} (f : A -> bool) (l : list A) :
  sublist (List.filter f l) l.
Proof.
  induction l as [|a l IH]; simpl; [constructor|].
  destruct (f a); [now apply sublist_skip|now apply sublist_cons].
Qed.

(** X18. Every group lists its parameters in the model's enumeration
    order, and the four group sizes add up to the number of named
    parameters: no parameter is dropped, duplicated or reordered. *)
Theorem parameter_groups_keep_order po (c : TaskConfig.t) :
  let groups := optimizer_grouped_parameters po c in
  List.length groups = 4 /\
  Forall (fun g => sublist (ParamGroup.params g) (map snd po)) groups /\
  list_sum (map (fun g => List.length (ParamGroup.params g)) groups)
  = List.length po.
Proof.
  cbv zeta. split; [reflexivity|]. split.
  - unfold optimizer_grouped_parameters,
      decay_clip_param_tp, decay_noclip_param_tp,
      no_decay_clip_param_tp, no_decay_noclip_param_tp,
      decay_param_tp, no_decay_param_tp.
    repeat constructor; cbn [ParamGroup.params];
      change (map snd ?l) with (snd <$> l); apply fmap_sublist;
      (etransitivity; [apply filter_sublist|apply filter_sublist]).
  - pose proof (Permutation_length (four_groups_perm po)) as H.
    rewrite !length_app in H.
    unfold optimizer_grouped_parameters. cbn [map ParamGroup.params list_sum].
    rewrite !length_map. unfold list_sum. cbn [fold_right]. lia.
Qed.

End OptimizerMore.

(** Substring tests, spelled out. *)
Lemma prefix_spec (sub s : string) :
  String.prefix sub s = true <-> exists post, s = String.append sub post.
Proof.
  revert sub. induction s as [|c s IH]; intros [|a sub]; simpl.
  - split; [exists ""; reflexivity|reflexivity].
  - split; [discriminate|intros [post H]; discriminate].
  - split; [exists (String c s); reflexivity|reflexivity].
  - destruct (Ascii.ascii_dec a c) as [->|Hne].
    + rewrite IH. split; intros [post H]; exists post.
      * now rewrite H.
      * now injection H.
    + split; [discriminate|].
      intros [post H]. injection H as H1 _. now elim Hne.
Qed.

Lemma contains_spec (sub s : string) :
  contains sub s = true <->
  exists pre post, s = String.append pre (String.append sub post).
Proof.
  split.
  - induction s as [|c s IH].
    + cbn [contains]. rewrite orb_false_r. intros H. apply prefix_spec in H.
      destruct H as [post H]. exists "", post. exact H.
    + cbn [contains]. intros H. apply orb_true_iff in H.
      destruct H as [H|H].
      * apply prefix_spec in H. destruct H as [post H].
        exists "", post. exact H.
      * destruct (IH H) as (pre & post & ->).
        exists (String c pre), post. reflexivity.
  - intros (pre & post & ->). induction pre as [|c pre IH].
    + change (String.append "" (String.append sub post))
        with (String.append sub post).
      assert (Hp : String.prefix sub (String.append sub post) = true)
        by (apply prefix_spec; eauto).
      remember (String.append sub post) as t eqn:Et. clear Et.
      destruct t; cbn [contains]; now rewrite Hp.
    + change (String.append (String c pre) (String.append sub post))
        with (String c (String.append pre (String.append sub post))).
      cbn [contains]. rewrite IH. apply orb_true_r.
Qed.

Lemma string_append_assoc (a b c : string) :
  String.append (String.append a b) c = String.append a (String.append b c).
Proof.
  induction a as [|x a IH]; [reflexivity|].
  change (String x (String.append (String.append a b) c)
          = String x (String.append a (String.append b c))).
  now rewrite IH.
Qed.

Lemma contains_suffix_of_marker (front back s : string) :
  contains (String.append front back) s = true -> contains back s = true.
Proof.
  intros H. apply contains_spec in H. destruct H as (pre & post & ->).
  apply contains_spec. exists (String.append pre front), post.
  now rewrite !string_append_assoc.
Qed.

(** X19. The no-decay test is decided by two of its three markers: a
    name that contains [LayerNorm.bias] contains [bias], so a parameter
    is excluded from weight decay exactly when its name contains [bias]
    or [LayerNorm.weight]. *)
Theorem no_decay_two_markers (n : string) :
  any_in no_decay n
  = contains "bias" n || contains "LayerNorm.weight" n.
Proof.
  unfold any_in, no_decay. cbn [existsb]. rewrite orb_false_r.
  destruct (contains "LayerNorm.bias" n) eqn:E; [|reflexivity].
  now rewrite (contains_suffix_of_marker "LayerNorm." "bias" n E).
Qed.

(** X20. When the accumulation step count is positive and divides
    [train_data_size + gradient_accumulation_steps - 1], the step count
    handed to the optimizer is exactly the intended ceiling-division
    count times the epoch count, an integer; with an accumulation step
    count of 1 it is [train_data_size * epochs].  The statement is kept
    to quotients, epoch counts and products of at most 2^53 in absolute
    value, the range in which every intermediate value of the float
    computation is exact. *)
Theorem optimization_steps_exact_when_divisible (c : TaskConfig.t) :
  let a := (TaskConfig.train_data_size c
            + TaskConfig.gradient_accumulation_steps c - 1)%Z in
  let b := TaskConfig.gradient_accumulation_steps c in
  (0 < b)%Z ->
  (b | a)%Z ->
  (Z.abs (a / b) <= 2 ^ 53)%Z ->
  (Z.abs (TaskConfig.epochs c) <= 2 ^ 53)%Z ->
  (Z.abs (a / b * TaskConfig.epochs c) <= 2 ^ 53)%Z ->
  exists q,
    num_train_optimization_steps c = Ok q /\
    (q == inject_Z (spec_total_steps c))%Q /\
    spec_total_steps c = (a / b * TaskConfig.epochs c)%Z /\
    (b = 1%Z ->
     spec_total_steps c
     = (TaskConfig.train_data_size c * TaskConfig.epochs c)%Z).
Proof.
  intros a b Hb Hdiv _ _ _.
  assert (Hspec : spec_total_steps c = (a / b * TaskConfig.epochs c)%Z).
  { unfold spec_total_steps. now rewrite <- (floor_idiom_is_ceiling _ _ Hb). }
  unfold num_train_optimization_steps, truediv. fold a. fold b.
  destruct (Z.eqb_spec b 0) as [E|_]; [lia|].
  eexists. split; [reflexivity|].
  assert (Hnz : ~ (inject_Z b == 0)%Q)
    by (intros Hb0; apply (inject_Z_injective b 0) in Hb0; lia).
  assert (Ha : a = (a / b * b)%Z).
  { apply Z.mod_divide in Hdiv; [|lia].
    pose proof (Z.div_mod a b) as Hdm. lia. }
  split; [|split; [exact Hspec|]].
  - rewrite Hspec, inject_Z_mult.
    rewrite Ha at 1. rewrite inject_Z_mult. field. exact Hnz.
  - intros H1. rewrite Hspec. unfold a. fold b. rewrite H1.
    rewrite Z.div_1_r. f_equal. lia.
Qed.

(** ** Concrete runs for the further properties *)

Import StepExamples.

Lemma gather_outputs_collects_all_witness :
  exists out,
    fst (_gather_outputs (peers [pool_item_2]) [query_item; pool_item_1]
           (fresh 0 3 [] []))
      = Ok (Some out) /\
    List.length out = 4.
Proof.
  destruct (gather_outputs_collects_all (P := nat) (peers [pool_item_2])
              [query_item; pool_item_1] (fresh 0 3 [] []) eq_refl)
    as (out & Hret & Hlen & _).
  exists out. split; [exact Hret|]. rewrite Hlen. reflexivity.
Defined.

Lemma gather_outputs_exchange_only_witness :
  fst (_gather_outputs (peers [pool_item_2]) [query_item; pool_item_1]
         (fresh 0 1 [] []))
  = Ok (Some [query_item; pool_item_1]).
Proof.
  destruct (gather_outputs_exchange_only (P := nat) (peers [pool_item_2])
              [query_item; pool_item_1] (fresh 0 1 [] []))
    as (_ & _ & Hone).
  exact (Hone eq_refl eq_refl).
Defined.


Lemma validation_loop_records_batches_witness :
  exists s',
    bind on_validation_start
      (fun _ => run_steps
                  (validation_step forward get_sequence_visual_output)
                  batches 0)
      (fresh 0 1 [pool_item_2] [])
      = (Ok tt, s') /\
    valid_step_outputs (self s') = [query_item; pool_item_1; pool_item_2] /\
    metrics (self s') val_loss = [7%Q; 8%Q; 9%Q].
Proof.
  destruct (validation_loop_records_batches forward
              get_sequence_visual_output (net clip_names) batches
              (fresh 0 1 [pool_item_2] []) eq_refl)
    as (s' & Hrun & Hv & _ & _ & Hloss & _).
  exists s'. split; [exact Hrun|]. split.
  - rewrite Hv. reflexivity.
  - rewrite Hloss. reflexivity.
Defined.

Lemma test_loop_records_like_validation_witness :
  exists st,
    bind on_test_start
      (fun _ => run_steps (test_step get_sequence_visual_output) batches 0)
      (start (cfg 10 4 1) (Bare (net clip_names)) 0 1 [] [query_item] used)
      = (Ok tt, st) /\
    metrics (self st) = used /\ calls st = [].
Proof.
  destruct (test_loop_records_like_validation forward
              get_sequence_visual_output (net clip_names) batches
              (start (cfg 10 4 1) (Bare (net clip_names)) 0 1 []
                 [query_item] used) eq_refl)
    as (sv & st & _ & Hrun & _ & _ & Hmet & Hcalls).
  exists st. split; [exact Hrun|]. split; [exact Hmet|exact Hcalls].
Defined.

Lemma example_model_one_row_per_item :
  one_row_per_item get_sequence_visual_output (net clip_names).
Proof.
  intros b. cbv zeta. unfold get_sequence_visual_output, fit. cbn [fst snd].
  rewrite !length_firstn, !length_app, !repeat_length.
  repeat split; lia.
Defined.

Lemma validation_loop_outputs_consistent_witness :
  exists s',
    bind on_validation_start
      (fun _ => run_steps
                  (validation_step forward get_sequence_visual_output)
                  batches 0)
      (fresh 0 1 [] [])
      = (Ok tt, s') /\
    aligned (valid_step_outputs (self s')).
Proof.
  destruct (validation_loop_outputs_consistent forward
              get_sequence_visual_output (net clip_names) batches
              (fresh 0 1 [] []))
    as (s' & Hrun & _ & Hal).
  - reflexivity.
  - exact example_model_one_row_per_item.
  - repeat constructor.
  - exists s'. split; [exact Hrun|exact Hal].
Defined.



Lemma validation_phase_without_batches_witness :
  fst (validation_phase forward get_sequence_visual_output scorer
         (peers [pool_item_2]) [] (fresh 0 2 [pool_item_2] []))
  = Raise TypeError.
Proof.
  destruct (validation_phase_without_batches forward
              get_sequence_visual_output scorer (peers [pool_item_2])
              (fresh 0 2 [pool_item_2] [])) as [Hzero _].
  rewrite (Hzero eq_refl). reflexivity.
Defined.

Lemma validation_epoch_end_missing_key_witness :
  exists s',
    on_validation_epoch_end m1_only_scorer (peers [])
      (fresh 0 1 [query_item; pool_item_1] [])
      = (Raise (KeyError "M2-R1"), s') /\
    map (metrics (self s')) val_recalls = [[1%Q]; [1%Q]; [1%Q]; []; []; []].
Proof.
  eexists. split.
  - apply (validation_epoch_end_missing_key m1_only_scorer (peers [])
             (fresh 0 1 [query_item; pool_item_1] [])
             (m1_only_scorer (mkTensor2 (1, 1) (fun _ _ => 0%Q)) [] [] "")
             1 1 1%Q 1%Q 1%Q); reflexivity.
  - reflexivity.
Defined.

Lemma test_epoch_end_nothing_recorded_witness :
  fst (on_test_epoch_end scorer (peers []) (fresh 0 2 [] []))
  = Raise TypeError.
Proof.
  rewrite (test_epoch_end_nothing_recorded scorer (peers [])
             (fresh 0 2 [] []) eq_refl).
  - reflexivity.
  - intros r Hr. destruct r as [|[|r]]; [reflexivity|reflexivity|].
    cbn in Hr. lia.
Defined.

Lemma validation_epoch_end_twice_witness :
  exists s',
    bind (on_validation_epoch_end scorer (peers []))
      (fun _ => on_validation_epoch_end scorer (peers [pool_item_2]))
      (fresh 0 2 [query_item; pool_item_1] [])
      = (Ok tt, s') /\
    metrics (self s') val_m1_recall_at_1 = [1%Q; 1%Q].
Proof.
  destruct (validation_epoch_end_twice scorer (peers [])
              (peers [pool_item_2]) (fresh 0 2 [query_item; pool_item_1] [])
              (scorer (mkTensor2 (1, 1) (fun _ _ => 0%Q)) [] [] "")
              1 1 1%Q 1%Q 1%Q 1%Q 1%Q 1%Q)
    as (s' & Hrun & Hmet); try reflexivity.
  exists s'. split; [exact Hrun|].
  cbn [map val_recalls] in Hmet. now injection Hmet.
Defined.

Lemma train_start_discards_sanity_values_witness :
  exists s',
    bind on_train_start
      (fun _ => on_validation_epoch_end scorer (peers []))
      (start (cfg 10 4 1) (Bare (net clip_names)) 0 1
         [query_item; pool_item_1] [] used)
      = (Ok tt, s') /\
    map (metrics (self s')) val_recalls
    = [[1%Q]; [1%Q]; [1%Q]; [1%Q]; [1%Q]; [1%Q]] /\
    metrics (self s') val_loss = [5%Q].
Proof.
  destruct (train_start_discards_sanity_values scorer (peers [])
              (start (cfg 10 4 1) (Bare (net clip_names)) 0 1
                 [query_item; pool_item_1] [] used)
              (scorer (mkTensor2 (1, 1) (fun _ _ => 0%Q)) [] [] "")
              1 1 1%Q 1%Q 1%Q 1%Q 1%Q 1%Q)
    as [_ Hthen].
  destruct Hthen as (s' & Hrun & Hmet); try reflexivity.
  exists s'. split; [exact Hrun|]. split; [exact Hmet|].
  revert Hrun. intros Hrun. apply (f_equal snd) in Hrun.
  cbn [snd] in Hrun. rewrite <- Hrun. reflexivity.
Defined.

Lemma configure_optimizers_zero_accumulation_witness :
  fst (configure_optimizers
         (start (cfg 10 0 1) (Wrapped (net clip_names)) 0 1 [] [] used))
  = Raise ZeroDivisionError.
Proof.
  rewrite (configure_optimizers_zero_accumulation
             (start (cfg 10 0 1) (Wrapped (net clip_names)) 0 1 [] [] used)
             eq_refl).
  reflexivity.
Defined.

Lemma configure_optimizers_unwraps_witness :
  exists opt s',
    configure_optimizers
      (start (cfg 10 4 1) (Wrapped (net clip_names)) 0 1 [] [] used)
      = (Ok opt, s') /\
    map ParamGroup.params (BertAdam.param_groups opt) = [[1]; [3]; [2]; [4]] /\
    model (self s') = Bare (net clip_names).
Proof.
  destruct (configure_optimizers_unwraps
              (start (cfg 10 4 1) (Wrapped (net clip_names)) 0 1 [] [] used)
              (net clip_names) eq_refl)
    as (opt & s' & Hrun & Hg & Hself & _).
  - cbn. lia.
  - exists opt, s'. split; [exact Hrun|]. split.
    + rewrite Hg. reflexivity.
    + rewrite Hself. reflexivity.
Defined.

Lemma optimization_steps_exact_when_divisible_witness :
  exists q,
    num_train_optimization_steps (cfg 9 4 2) = Ok q /\
    (q == inject_Z 6)%Q.
Proof.
  destruct (optimization_steps_exact_when_divisible (cfg 9 4 2))
    as (q & Hq & Heq & _).
  - cbn. lia.
  - exists 3%Z. reflexivity.
  - vm_compute. discriminate.
  - vm_compute. discriminate.
  - vm_compute. discriminate.
  - exists q. split; [exact Hq|]. exact Heq.
Defined.

Lemma training_loop_accumulates_losses_witness :
  exists s',
    run_steps (training_step forward) batches 0
      (fresh 0 1 [pool_item_2] [])
      = (Ok tt, s') /\
    metrics (self s') train_loss = [7%Q; 8%Q; 9%Q] /\
    metrics (self s') val_loss = [] /\
    valid_step_outputs (self s') = [pool_item_2].
Proof.
  destruct (training_loop_accumulates_losses forward batches 0
              (fresh 0 1 [pool_item_2] []))
    as (_ & s' & Hrun & Hloss & Hoth & Hv & _).
  exists s'. split; [exact Hrun|]. split; [|split].
  - rewrite Hloss. reflexivity.
  - rewrite (Hoth val_loss) by discriminate. reflexivity.
  - rewrite Hv. reflexivity.
Defined.

Lemma epoch_end_handlers_frame_witness :
  metrics
    (self (snd (on_validation_epoch_end scorer (peers [pool_item_2])
                  (start (cfg 10 4 1) (Bare (net clip_names)) 0 2
                     [query_item; pool_item_1] [] used))))
    train_loss
  = [5%Q].
Proof.
  destruct (epoch_end_handlers_frame scorer (peers [pool_item_2])
              (start (cfg 10 4 1) (Bare (net clip_names)) 0 2
                 [query_item; pool_item_1] [] used))
    as [(_ & _ & _ & Hval) _].
  rewrite (Hval train_loss).
  - reflexivity.
  - cbn. intuition discriminate.
Defined.
